(** * Load-test threshold checker: tests/load/check_thresholds.py

    A shallow embedding of the script that reads k6 result documents,
    extracts a handful of metrics, compares them with the fixed THRESHOLDS
    table and turns the outcome into a process exit code.

    Python values are modelled dynamically (an operation applied to a value
    of the wrong type raises, as in Python), dictionaries are finite maps,
    [print] appends to the output of the run, and exceptions (including
    SystemExit) are the error component of the monad the code runs in.
    The arithmetic of numbers is an interface with two instances: Python's
    own (unbounded int, binary64 float) and exact rationals. *)

From Stdlib Require Import ZArith QArith String List Bool Lia.
From Stdlib Require Import Floats.PrimFloat Floats.SpecFloat Floats.FloatOps.
From stdpp Require Import gmap strings.

Set Warnings "-inexact-float,-register-all".

Local Open Scope string_scope.
Local Open Scope list_scope.
Local Open Scope Z_scope.

(** ** Exceptions and results *)

Inductive exn : Type :=
| TypeError
| KeyError (key : string)
| AttributeError
| ValueError
| OverflowError
| IndexError
| OSError (msg : string)
| JSONDecodeError (msg : string)
| SystemExit (code : Z).

(** [except Exception] catches everything here except SystemExit, which
    derives from BaseException only. *)
Definition is_Exception (e : exn) : bool :=
  match e with
  | SystemExit _ => false
  | _ => true
  end.

Inductive res (A : Type) : Type :=
| Ok (a : A)
| Raise (e : exn).

Arguments Ok {A} a.
Arguments Raise {A} e.

Definition res_bind {A B : Type} (r : res A) (k : A -> res B) : res B :=
  match r with
  | Ok a => k a
  | Raise e => Raise e
  end.

Notation "'let?' x ':=' e 'in' k" := (res_bind e (fun x => k))
  (at level 10, x name, e at level 100, k at level 200).

(** ** Numbers

    What the script does with numbers: it multiplies by the literal 100,
    subtracts from the literal 100, compares with [<=] and [>=], tests for
    zero (truthiness) and formats with [:.2f] / [:.0f].  The only way
    arithmetic or formatting of a number fails is OverflowError (an int too
    large to convert to float). *)

Class PyNum : Type := {
  num : Type;
  num_of_Z : Z -> num;                 (* an int literal, or a bool used as int *)
  num_lit_0_1 : num;                   (* the literal 0.1 *)
  num_lit_99_9 : num;                  (* the literal 99.9 *)
  num_mul : num -> num -> option num;  (* None: OverflowError *)
  num_sub : num -> num -> option num;  (* None: OverflowError *)
  num_le : num -> num -> bool;
  num_ge : num -> num -> bool;
  num_is_zero : num -> bool;
  num_format_ok : num -> bool;         (* format(x, '.2f') does not raise *)
  (* the three limits of the script can be printed *)
  num_limits_format_ok :
    num_format_ok (num_of_Z 500) = true
    /\ num_format_ok num_lit_0_1 = true
    /\ num_format_ok num_lit_99_9 = true
}.

(** ** Python values, as [json.load] builds them *)

Section Evaluator.

Context {PN : PyNum}.

Inductive pyval : Type :=
| VNone
| VBool (b : bool)
| VNum (n : num)
| VStr (s : string)
| VList (l : list pyval)
| VDict (d : gmap string pyval).

Definition py_truthy (v : pyval) : bool :=
  match v with
  | VNone => false
  | VBool b => b
  | VNum n => negb (num_is_zero n)
  | VStr s => negb (String.eqb s "")
  | VList l => negb (Nat.eqb (List.length l) 0)
  | VDict d => negb (Nat.eqb (size d) 0)
  end.

(** [needle in hay] for two strings: substring test. *)
Definition str_contains (needle hay : string) : bool :=
  match String.index 0 needle hay with
  | Some _ => true
  | None => false
  end.

(** [key in container], for a [str] key. *)
Definition py_in (key : string) (container : pyval) : res bool :=
  match container with
  | VDict d => Ok (bool_decide (is_Some (d !! key)))
  | VList l =>
      Ok (existsb (fun v => match v with
                            | VStr s => String.eqb s key
                            | _ => false
                            end) l)
  | VStr s => Ok (str_contains key s)
  | VNone | VBool _ | VNum _ => Raise TypeError
  end.

(** [container[key]], for a [str] key. *)
Definition py_getitem (container : pyval) (key : string) : res pyval :=
  match container with
  | VDict d =>
      match d !! key with
      | Some v => Ok v
      | None => Raise (KeyError key)
      end
  | _ => Raise TypeError
  end.

(** [obj.get(key, dflt)]: only dicts have the method. *)
Definition py_get (obj : pyval) (key : string) (dflt : pyval) : res pyval :=
  match obj with
  | VDict d => Ok (default dflt (d !! key))
  | _ => Raise AttributeError
  end.

Definition bool_num (b : bool) : num := num_of_Z (Z.b2z b).

Definition or_overflow {A : Type} (o : option A) : res A :=
  match o with
  | Some a => Ok a
  | None => Raise OverflowError
  end.

(** [format(n, '.2f')] for a number: the text is presentation; what matters
    is whether the conversion raises. *)
Definition num_format_f (n : num) : res unit :=
  if num_format_ok n then Ok tt else Raise OverflowError.

Fixpoint str_repeat (s : string) (k : nat) : string :=
  match k with
  | O => ""
  | S k' => (s ++ str_repeat s k')%string
  end.

Fixpoint list_repeat (l : list pyval) (k : nat) : list pyval :=
  match k with
  | O => []
  | S k' => l ++ list_repeat l k'
  end.

(** [v * k] for an int literal [k]. *)
Definition py_mul_int (v : pyval) (k : Z) : res pyval :=
  match v with
  | VNum n => let? r := or_overflow (num_mul n (num_of_Z k)) in Ok (VNum r)
  | VBool b =>
      let? r := or_overflow (num_mul (bool_num b) (num_of_Z k)) in Ok (VNum r)
  | VStr s => Ok (VStr (str_repeat s (Z.to_nat k)))
  | VList l => Ok (VList (list_repeat l (Z.to_nat k)))
  | VNone | VDict _ => Raise TypeError
  end.

(** [k - v] for an int literal [k]. *)
Definition py_rsub_int (k : Z) (v : pyval) : res pyval :=
  match v with
  | VNum n => let? r := or_overflow (num_sub (num_of_Z k) n) in Ok (VNum r)
  | VBool b =>
      let? r := or_overflow (num_sub (num_of_Z k) (bool_num b)) in Ok (VNum r)
  | _ => Raise TypeError
  end.

(** [v <= t] and [v >= t] against a number. *)
Definition py_le (v : pyval) (t : num) : res bool :=
  match v with
  | VNum n => Ok (num_le n t)
  | VBool b => Ok (num_le (bool_num b) t)
  | _ => Raise TypeError
  end.

Definition py_ge (v : pyval) (t : num) : res bool :=
  match v with
  | VNum n => Ok (num_ge n t)
  | VBool b => Ok (num_ge (bool_num b) t)
  | _ => Raise TypeError
  end.

(** [f"{v:.2f}"] (or [:.0f]) for any value. *)
Definition py_format_f (v : pyval) : res unit :=
  match v with
  | VNum n => num_format_f n
  | VBool b => num_format_f (bool_num b)
  | VStr _ => Raise ValueError
  | VNone | VList _ | VDict _ => Raise TypeError
  end.

(** ** The process: globals, file system, standard output *)

(** What [open] followed by [json.load] does for a path. *)
Inductive file_read : Type :=
| Unreadable (msg : string)      (* open() raises OSError *)
| Malformed (msg : string)       (* json.load raises JSONDecodeError *)
| Parsed (v : pyval).

Record world : Type := mkWorld {
  THRESHOLDS : gmap string num;  (* the module-level dict *)
  sys_argv : list string;
  files : string -> file_read
}.

Inductive cmp_symbol : Type := SymLe | SymGe.

(** One constructor per [print] call of the script; formatted numbers are
    carried as values. *)
Inductive event : Type :=
| PUsage (prog : string)
| PTitle
| PRule
| PThresholdsHeader
| PThreshold (label : string) (sym : cmp_symbol) (t : num)
| PAnalyzing (file_path : string)
| PLoadError (file_path : string) (e : exn)
| PNoMetrics
| PSummaryHeader
| PSummary (label : string) (v : pyval)
| PChecksHeader
| PCheck (name : string) (passed : bool) (value : pyval)
         (sym : cmp_symbol) (threshold : num)
| PFinalRule
| PAllPassed
| PSomeFailed.

Record outcome (A : Type) : Type := mkOutcome {
  value : res A;
  final : world;
  printed : list event
}.

Arguments mkOutcome {A} _ _ _.
Arguments value {A} _.
Arguments final {A} _.
Arguments printed {A} _.

Definition M (A : Type) : Type := world -> outcome A.

Definition ret {A : Type} (a : A) : M A :=
  fun w => mkOutcome (Ok a) w [].

Definition raise {A : Type} (e : exn) : M A :=
  fun w => mkOutcome (Raise e) w [].

Definition lift {A : Type} (r : res A) : M A :=
  fun w => mkOutcome r w [].

Definition bind {A B : Type} (m : M A) (k : A -> M B) : M B :=
  fun w =>
    let o := m w in
    match value o with
    | Ok a =>
        let o' := k a (final o) in
        mkOutcome (value o') (final o') (printed o ++ printed o')
    | Raise e => mkOutcome (Raise e) (final o) (printed o)
    end.

Definition print (e : event) : M unit :=
  fun w => mkOutcome (Ok tt) w [e].

Definition read_global {A : Type} (f : world -> A) : M A :=
  fun w => mkOutcome (Ok (f w)) w [].

(** [try: m  except Exception as e: h e] *)
Definition try_except {A : Type} (m : M A) (h : exn -> M A) : M A :=
  fun w =>
    let o := m w in
    match value o with
    | Ok a => o
    | Raise e =>
        if is_Exception e then
          let o' := h e (final o) in
          mkOutcome (value o') (final o') (printed o ++ printed o')
        else o
    end.

Definition sys_exit {A : Type} (code : Z) : M A := raise (SystemExit code).

Notation "x <- e ;; k" := (bind e (fun x => k))
  (at level 100, e at next level, k at level 200, right associativity).
Notation "e ;; k" := (bind e (fun _ => k))
  (at level 100, k at level 200, right associativity).

(** ** The script *)

(** THRESHOLDS as the module defines it. *)
Definition THRESHOLDS_init : gmap string num :=
  <["p95_latency_ms" := num_of_Z 500]>
  (<["error_rate_percent" := num_lit_0_1]>
  (<["success_rate_percent" := num_lit_99_9]> ∅)).

(** [THRESHOLDS[key]] *)
Definition threshold (key : string) : M num :=
  t <- read_global THRESHOLDS ;;
  match t !! key with
  | Some v => ret v
  | None => raise (KeyError key)
  end.

(** [json.load(open(file_path))] *)
Definition json_load_file (file_path : string) : M pyval :=
  fs <- read_global files ;;
  match fs file_path with
  | Unreadable msg => raise (OSError msg)
  | Malformed msg => raise (JSONDecodeError msg)
  | Parsed v => ret v
  end.

Definition load_results (file_path : string) : M pyval :=
  try_except
    (json_load_file file_path)
    (fun e => print (PLoadError file_path e) ;; ret (VDict ∅)).

Definition int0 : pyval := VNum (num_of_Z 0).

Definition extract_metrics (data : pyval) : res (gmap string pyval) :=
  let metrics : gmap string pyval := ∅ in
  let? has_metrics := py_in "metrics" data in
  if negb has_metrics then Ok metrics else
  let? groups := py_getitem data "metrics" in
  (* HTTP request duration *)
  let? has_duration := py_in "http_req_duration" groups in
  let? metrics :=
    if has_duration then
      let? group := py_getitem groups "http_req_duration" in
      let? duration := py_getitem group "values" in
      let? avg := py_get duration "avg" int0 in
      let metrics := <["avg_latency" := avg]> metrics in
      let? p95 := py_get duration "p(95)" int0 in
      let metrics := <["p95_latency" := p95]> metrics in
      let? p99 := py_get duration "p(99)" int0 in
      let metrics := <["p99_latency" := p99]> metrics in
      let? mx := py_get duration "max" int0 in
      Ok (<["max_latency" := mx]> metrics)
    else Ok metrics in
  (* HTTP request failure rate *)
  let? has_failed := py_in "http_req_failed" groups in
  let? metrics :=
    if has_failed then
      let? group := py_getitem groups "http_req_failed" in
      let? failed := py_getitem group "values" in
      let? rate := py_get failed "rate" int0 in
      let? percent := py_mul_int rate 100 in
      Ok (<["error_rate" := percent]> metrics)
    else Ok metrics in
  (* Total requests *)
  let? has_reqs := py_in "http_reqs" groups in
  let? metrics :=
    if has_reqs then
      let? group := py_getitem groups "http_reqs" in
      let? reqs := py_getitem group "values" in
      let? count := py_get reqs "count" int0 in
      let metrics := <["total_requests" := count]> metrics in
      let? rate := py_get reqs "rate" int0 in
      Ok (<["requests_per_second" := rate]> metrics)
    else Ok metrics in
  (* Iterations *)
  let? has_iterations := py_in "iterations" groups in
  let? metrics :=
    if has_iterations then
      let? group := py_getitem groups "iterations" in
      let? iterations := py_getitem group "values" in
      let? count := py_get iterations "count" int0 in
      Ok (<["total_iterations" := count]> metrics)
    else Ok metrics in
  (* VUs *)
  let? has_vus := py_in "vus" groups in
  let? metrics :=
    if has_vus then
      let? group := py_getitem groups "vus" in
      let? vus := py_getitem group "values" in
      let? mx := py_get vus "max" int0 in
      Ok (<["max_vus" := mx]> metrics)
    else Ok metrics in
  Ok metrics.

Definition check_threshold (name : string) (value : pyval) (threshold : num)
    (lower_is_better : bool) : M bool :=
  passed <- lift (if lower_is_better then py_le value threshold
                  else py_ge value threshold) ;;
  let symbol := if lower_is_better then SymLe else SymGe in
  (* comparison = f"{value:.2f} {symbol} {threshold:.2f}" *)
  lift (py_format_f value) ;;
  lift (num_format_f threshold) ;;
  print (PCheck name passed value symbol threshold) ;;
  ret passed.

(** [print(f"  {label}: {metrics.get(key, 0):.2f}")] *)
Definition print_summary (label key : string) (metrics : gmap string pyval)
    : M unit :=
  let v := default int0 (metrics !! key) in
  lift (py_format_f v) ;;
  print (PSummary label v).

(** [metrics[key]] *)
Definition metric (metrics : gmap string pyval) (key : string) : M pyval :=
  match metrics !! key with
  | Some v => ret v
  | None => raise (KeyError key)
  end.

Definition analyze_results (file_path : string) : M bool :=
  print (PAnalyzing file_path) ;;
  print PRule ;;
  data <- load_results file_path ;;
  if negb (py_truthy data) then ret false else
  metrics <- lift (extract_metrics data) ;;
  if Nat.eqb (size metrics) 0 then
    print PNoMetrics ;;
    ret false
  else
  (* Print summary *)
  print PSummaryHeader ;;
  print_summary "Total Requests" "total_requests" metrics ;;
  print_summary "RPS" "requests_per_second" metrics ;;
  print_summary "Max VUs" "max_vus" metrics ;;
  print_summary "Avg Latency" "avg_latency" metrics ;;
  print_summary "P95 Latency" "p95_latency" metrics ;;
  print_summary "P99 Latency" "p99_latency" metrics ;;
  print_summary "Error Rate" "error_rate" metrics ;;
  (* Check thresholds *)
  print PChecksHeader ;;
  let all_passed := true in
  (* Check P95 latency *)
  all_passed <-
    (if bool_decide (is_Some (metrics !! "p95_latency")) then
       v <- metric metrics "p95_latency" ;;
       t <- threshold "p95_latency_ms" ;;
       passed <- check_threshold "P95 Latency" v t true ;;
       ret (all_passed && passed)
     else ret all_passed) ;;
  (* Check error rate *)
  all_passed <-
    (if bool_decide (is_Some (metrics !! "error_rate")) then
       v <- metric metrics "error_rate" ;;
       t <- threshold "error_rate_percent" ;;
       passed <- check_threshold "Error Rate" v t true ;;
       ret (all_passed && passed)
     else ret all_passed) ;;
  (* Calculate and check success rate *)
  all_passed <-
    (if bool_decide (is_Some (metrics !! "error_rate")) then
       v <- metric metrics "error_rate" ;;
       success_rate <- lift (py_rsub_int 100 v) ;;
       t <- threshold "success_rate_percent" ;;
       passed <- check_threshold "Success Rate" success_rate t false ;;
       ret (all_passed && passed)
     else ret all_passed) ;;
  ret all_passed.

(** The [for file_path in result_files] loop of [main], with its running
    [all_passed]. *)
Fixpoint main_loop (result_files : list string) (all_passed : bool) : M bool :=
  match result_files with
  | [] => ret all_passed
  | file_path :: rest =>
      passed <- analyze_results file_path ;;
      main_loop rest (all_passed && passed)
  end.

Definition main : M unit :=
  argv <- read_global sys_argv ;;
  (if Nat.ltb (List.length argv) 2 then
     match argv with
     | prog :: _ => print (PUsage prog) ;; sys_exit 1
     | [] => raise IndexError
     end
   else ret tt) ;;
  let result_files := List.tl argv in
  print PTitle ;;
  print PRule ;;
  print PThresholdsHeader ;;
  t <- threshold "p95_latency_ms" ;;
  print (PThreshold "P95 Latency" SymLe t) ;;
  t <- threshold "error_rate_percent" ;;
  print (PThreshold "Error Rate" SymLe t) ;;
  t <- threshold "success_rate_percent" ;;
  print (PThreshold "Success Rate" SymGe t) ;;
  all_passed <- main_loop result_files true ;;
  (* Final summary *)
  print PFinalRule ;;
  if all_passed then
    print PAllPassed ;;
    sys_exit 0
  else
    print PSomeFailed ;;
    sys_exit 1.

(** The interpreter around [main()]: THRESHOLDS is built at import, then the
    exit status is SystemExit's code, 1 for any other uncaught exception and
    0 for a normal return. *)
Definition initial_world (fs : string -> file_read) (argv : list string)
    : world :=
  mkWorld THRESHOLDS_init argv fs.

Definition exit_code (r : res unit) : Z :=
  match r with
  | Ok _ => 0
  | Raise (SystemExit code) => code
  | Raise _ => 1
  end.

Definition run (fs : string -> file_read) (argv : list string)
    : outcome unit :=
  main (initial_world fs argv).

End Evaluator.

Arguments pyval : clear implicits.
Arguments world : clear implicits.
Arguments event : clear implicits.
Arguments file_read : clear implicits.
Arguments outcome : clear implicits.
Arguments M : clear implicits.
Arguments mkOutcome {PN A} _ _ _.
Arguments value {PN A} _.
Arguments final {PN A} _.
Arguments printed {PN A} _.

Notation "x <- e ;; k" := (bind e (fun x => k))
  (at level 100, e at next level, k at level 200, right associativity).
Notation "e ;; k" := (bind e (fun _ => k))
  (at level 100, k at level 200, right associativity).

(** ** Python's numbers: unbounded [int] and binary64 [float] *)

Inductive pynum : Type :=
| PInt (z : Z)
| PFloat (f : float).

(** [float(z)]: round to nearest even; [None] when out of range
    (OverflowError). *)
Definition float_of_int (z : Z) : option float :=
  let f := SF2Prim (binary_normalize prec emax z 0 false) in
  if PrimFloat.is_infinity f then None else Some f.

Definition as_float (n : pynum) : option float :=
  match n with
  | PInt z => float_of_int z
  | PFloat f => Some f
  end.

(** Python compares an int with a float by value, without rounding the int;
    [None] when the float is a NaN. *)
Definition float_cmp_int (f : float) (z : Z) : option comparison :=
  match Prim2SF f with
  | S754_nan => None
  | S754_infinity s => Some (if s then Lt else Gt)
  | S754_zero _ => Some (0 ?= z)%Z
  | S754_finite s m e =>
      let sm := if s then Z.neg m else Z.pos m in
      Some (if 0 <=? e then (sm * 2 ^ e ?= z)%Z else (sm ?= z * 2 ^ (- e))%Z)
  end.

Definition pynum_mul (a b : pynum) : option pynum :=
  match a, b with
  | PInt x, PInt y => Some (PInt (x * y))
  | _, _ =>
      match as_float a, as_float b with
      | Some x, Some y => Some (PFloat (x * y)%float)
      | _, _ => None
      end
  end.

Definition pynum_sub (a b : pynum) : option pynum :=
  match a, b with
  | PInt x, PInt y => Some (PInt (x - y))
  | _, _ =>
      match as_float a, as_float b with
      | Some x, Some y => Some (PFloat (x - y)%float)
      | _, _ => None
      end
  end.

Definition pynum_le (a b : pynum) : bool :=
  match a, b with
  | PInt x, PInt y => x <=? y
  | PFloat x, PFloat y => PrimFloat.leb x y
  | PFloat x, PInt y =>
      match float_cmp_int x y with
      | Some Lt | Some Eq => true
      | _ => false
      end
  | PInt x, PFloat y =>
      match float_cmp_int y x with
      | Some Gt | Some Eq => true
      | _ => false
      end
  end.

Definition pynum_ge (a b : pynum) : bool := pynum_le b a.

Definition pynum_is_zero (a : pynum) : bool :=
  match a with
  | PInt z => z =? 0
  | PFloat f => PrimFloat.eqb f 0%float
  end.

Definition pynum_format_ok (a : pynum) : bool :=
  match as_float a with
  | Some _ => true
  | None => false
  end.

#[export] Instance python_num : PyNum := {|
  num := pynum;
  num_of_Z := PInt;
  num_lit_0_1 := PFloat 0.1%float;
  num_lit_99_9 := PFloat 99.9%float;
  num_mul := pynum_mul;
  num_sub := pynum_sub;
  num_le := pynum_le;
  num_ge := pynum_ge;
  num_is_zero := pynum_is_zero;
  num_format_ok := pynum_format_ok;
  num_limits_format_ok := conj eq_refl (conj eq_refl eq_refl)
|}.

(** ** Exact arithmetic: every number a rational, literals read exactly *)

Definition exact_num : PyNum := {|
  num := Q;
  num_of_Z := inject_Z;
  num_lit_0_1 := (1 # 10)%Q;
  num_lit_99_9 := (999 # 10)%Q;
  num_mul := fun a b => Some (a * b)%Q;
  num_sub := fun a b => Some (a - b)%Q;
  num_le := Qle_bool;
  num_ge := fun a b => Qle_bool b a;
  num_is_zero := fun a => Qeq_bool a 0;
  num_format_ok := fun _ => true;
  num_limits_format_ok := conj eq_refl (conj eq_refl eq_refl)
|}.

(** ** Example documents *)

(** JSON numbers as Python reads them. *)
Definition py_int (z : Z) : pyval python_num := VNum (PInt z).
Definition py_float (f : float) : pyval python_num := VNum (PFloat f).

(** A JSON object literal. *)
Definition json_object {PN : PyNum} (items : list (string * pyval PN))
    : pyval PN :=
  VDict (list_to_map items).

(** A file system with one readable document. *)
Definition one_file {PN : PyNum} (path : string) (doc : pyval PN)
    : string -> file_read PN :=
  fun p => if String.eqb p path then Parsed doc else Unreadable "No such file".

Definition doc_pass : pyval python_num :=
  json_object [("metrics", json_object [
    ("http_req_duration", json_object [("values", json_object [("p(95)", py_int 450)])]);
    ("http_req_failed", json_object [("values", json_object [("rate", py_float 0.0005%float)])])])].

Definition doc_fail : pyval python_num :=
  json_object [("metrics", json_object [
    ("http_req_duration", json_object [("values", json_object [("p(95)", py_int 600)])]);
    ("http_req_failed", json_object [("values", json_object [("rate", py_float 0.002%float)])])])].

Definition prog_name : string := "check_thresholds.py".

(** A rate just above 0.001: as a percentage it is the float after 0.1. *)
Definition doc_edge : pyval python_num :=
  json_object [("metrics", json_object [
    ("http_req_failed", json_object [("values", json_object [("rate", py_float 0.0010000000000000002%float)])])])].

(** Only the vus group. *)
Definition doc_vus : pyval python_num :=
  json_object [("metrics", json_object [
    ("vus", json_object [("values", json_object [("max", py_int 50)])])])].

(** A failure-rate group that lacks its values mapping. *)
Definition doc_no_values : pyval python_num :=
  json_object [("metrics", json_object [("http_req_failed", json_object [])])].

(** A document with the duration group only. *)
Definition duration_groups : gmap string (pyval python_num) :=
  list_to_map
    [("http_req_duration", json_object [("values", json_object [("p(95)", py_float 480.5%float)])])].

Definition duration_top : gmap string (pyval python_num) :=
  list_to_map [("metrics", VDict duration_groups)].

Definition doc_duration : pyval python_num := VDict duration_top.

(** What extraction gives for a document (empty when it raises). *)
Definition metrics_of {PN : PyNum} (data : pyval PN) : gmap string (pyval PN) :=
  match extract_metrics data with
  | Ok metrics => metrics
  | Raise _ => ∅
  end.

(** The world of a run on one document stored as results.json. *)
Definition world_of {PN : PyNum} (doc : pyval PN) : world PN :=
  initial_world (one_file "results.json" doc) [prog_name; "results.json"].

(** [doc_pass] in exact arithmetic. *)
Definition doc_pass_exact : pyval exact_num :=
  json_object [("metrics", json_object [
    ("http_req_duration", json_object [("values", json_object [("p(95)", VNum (PN:=exact_num) (450 # 1)%Q)])]);
    ("http_req_failed", json_object [("values", json_object [("rate", VNum (PN:=exact_num) (5 # 10000)%Q)])])])].

(** ** Predicates used in the statements *)

Section Predicates.

Context {PN : PyNum}.

(** The computation leaves the globals (THRESHOLDS, sys.argv) and the file
    system as it found them. *)
Definition preserves {A : Type} (m : M PN A) : Prop :=
  forall w, final (m w) = w.

(** Whatever the computation raises is an [Exception], never SystemExit. *)
Definition res_no_exit {A : Type} (r : res A) : Prop :=
  forall e, r = Raise e -> is_Exception e = true.

Definition no_exit {A : Type} (m : M PN A) : Prop :=
  forall w, res_no_exit (value (m w)).

(** [o] with [tr] printed before it. *)
Definition after {A : Type} (tr : list (event PN)) (o : outcome PN A)
    : outcome PN A :=
  mkOutcome (value o) (final o) (tr ++ printed o).

(** The number a comparison or a format sees in a value: a number itself,
    or a bool as 0 or 1. *)
Definition as_num (v : pyval PN) : option num :=
  match v with
  | VNum n => Some n
  | VBool b => Some (bool_num b)
  | _ => None
  end.

(** The lines of the summary block: label and metric, in print order. *)
Definition summary_lines : list (string * string) :=
  [("Total Requests", "total_requests"); ("RPS", "requests_per_second");
   ("Max VUs", "max_vus"); ("Avg Latency", "avg_latency");
   ("P95 Latency", "p95_latency"); ("P99 Latency", "p99_latency");
   ("Error Rate", "error_rate")].

(** Every value the summary block formats is one [:.2f] accepts: a number
    (or a bool) that converts to float, as the return type Dict[str, float]
    of [extract_metrics] announces. *)
Definition summary_ok (metrics : gmap string (pyval PN)) : bool :=
  forallb (fun line =>
             match py_format_f (default int0 (metrics !! line.2)) with
             | Ok _ => true
             | Raise _ => false
             end)
          summary_lines.

(** What the analysis of [p] prints up to and including the header of the
    checks, when it gets that far. *)
Definition summary_block (p : string) (metrics : gmap string (pyval PN))
    : list (event PN) :=
  [PAnalyzing p; PRule; PSummaryHeader]
  ++ List.map (fun line => PSummary line.1 (default int0 (metrics !! line.2)))
              summary_lines
  ++ [PChecksHeader].

(** The checks as the specification words them (4.1, Analyze one file):
    three checks in fixed order, p95 latency, error rate, derived success
    rate (100 minus error rate); a check whose source metric is absent is
    skipped and does not affect the AND; the result is the AND of the
    outcomes. *)
Definition optional_check (name : string) (v : option (pyval PN)) (t : num)
    (lower_is_better : bool) : M PN bool :=
  match v with
  | Some v => check_threshold name v t lower_is_better
  | None => ret true
  end.

Definition spec_checks (metrics : gmap string (pyval PN)) : M PN bool :=
  b1 <- optional_check "P95 Latency" (metrics !! "p95_latency")
                       (num_of_Z 500) true ;;
  b2 <- optional_check "Error Rate" (metrics !! "error_rate")
                       num_lit_0_1 true ;;
  b3 <- match metrics !! "error_rate" with
        | Some error_rate =>
            success_rate <- lift (py_rsub_int 100 error_rate) ;;
            check_threshold "Success Rate" success_rate num_lit_99_9 false
        | None => ret true
        end ;;
  ret (b1 && b2 && b3).

(** Every event the computation prints from [w] satisfies [P]. *)
Definition every_print {A : Type} (P : event PN -> Prop) (m : M PN A)
    (w : world PN) : Prop :=
  Forall P (printed (m w)).

(** What a printed check line says about the file it was printed for: which
    metric was compared, with which limit and in which direction. *)
Definition check_sound (w : world PN) (p : string) (e : event PN) : Prop :=
  match e with
  | PCheck name passed v sym t =>
      exists data metrics,
        files w p = Parsed data
        /\ extract_metrics data = Ok metrics
        /\ ((name = "P95 Latency"
             /\ metrics !! "p95_latency" = Some v
             /\ THRESHOLDS w !! "p95_latency_ms" = Some t
             /\ sym = SymLe /\ py_le v t = Ok passed)
            \/ (name = "Error Rate"
                /\ metrics !! "error_rate" = Some v
                /\ THRESHOLDS w !! "error_rate_percent" = Some t
                /\ sym = SymLe /\ py_le v t = Ok passed)
            \/ (name = "Success Rate"
                /\ (exists error_rate,
                      metrics !! "error_rate" = Some error_rate
                      /\ py_rsub_int 100 error_rate = Ok v)
                /\ THRESHOLDS w !! "success_rate_percent" = Some t
                /\ sym = SymGe /\ py_ge v t = Ok passed))
  | _ => True
  end.

(** The per-file result the loop of [main] folds, as a boolean: [true]
    when the analysis of [p] returns [True]. *)
Definition file_passes (w : world PN) (p : string) : bool :=
  match value (analyze_results p w) with
  | Ok true => true
  | _ => false
  end.

(** What [main] prints before it analyzes the first file. *)
Definition banner : list (event PN) :=
  [PTitle; PRule; PThresholdsHeader;
   PThreshold "P95 Latency" SymLe (num_of_Z 500);
   PThreshold "Error Rate" SymLe num_lit_0_1;
   PThreshold "Success Rate" SymGe num_lit_99_9].

Definition is_check (name : string) (e : event PN) : Prop :=
  exists passed v sym t, e = PCheck name passed v sym t.

(** The check lines among what was printed. *)
Definition check_lines (tr : list (event PN)) : list (event PN) :=
  List.filter (fun e => match e with
                        | PCheck _ _ _ _ _ => true
                        | _ => false
                        end) tr.

End Predicates.

(** ** Predicates for the properties of extraction *)

Section ExtractionShape.

Context {PN : PyNum}.

(** [groups[group]['values'].get(key, 0)] when the group is there and both
    it and its values are dicts. *)
Definition group_field (groups : gmap string (pyval PN)) (group key : string)
    : option (pyval PN) :=
  match groups !! group with
  | Some (VDict g) =>
      match g !! "values" with
      | Some (VDict vals) => Some (default int0 (vals !! key))
      | _ => None
      end
  | _ => None
  end.

(** The groups [extract_metrics] looks for, and the keys it can set. *)
Definition group_names : list string :=
  ["http_req_duration"; "http_req_failed"; "http_reqs"; "iterations"; "vus"].

Definition metric_names : list string :=
  ["avg_latency"; "p95_latency"; "p99_latency"; "max_latency"; "error_rate";
   "total_requests"; "requests_per_second"; "total_iterations"; "max_vus"].

(** The group is absent, or it is a dict whose 'values' is a dict. *)
Definition group_shape_ok (groups : gmap string (pyval PN)) (group : string)
    : bool :=
  match groups !! group with
  | None => true
  | Some (VDict g) =>
      match g !! "values" with
      | Some (VDict _) => true
      | _ => false
      end
  | Some _ => false
  end.

(** Every group that is present has the shape above, and the failure rate,
    when there is one, can be multiplied by 100. *)
Definition extractable (groups : gmap string (pyval PN)) : bool :=
  forallb (group_shape_ok groups) group_names
  && match group_field groups "http_req_failed" "rate" with
     | Some rate =>
         match py_mul_int rate 100 with
         | Ok _ => true
         | Raise _ => false
         end
     | None => true
     end.

End ExtractionShape.

(** ** More example documents *)

(** An empty JSON object. *)
Definition doc_empty : pyval python_num := json_object [].

(** A document without a 'metrics' key. *)
Definition other_top : gmap string (pyval python_num) :=
  list_to_map [("root_group", json_object [])].

Definition doc_other : pyval python_num := VDict other_top.

(** Only the vus group, its max null. *)
Definition doc_vus_null : pyval python_num :=
  json_object [("metrics", json_object [
    ("vus", json_object [("values", json_object [("max", VNone)])])])].

(** A duration group whose p(95) is a string. *)
Definition doc_text : pyval python_num :=
  json_object [("metrics", json_object [
    ("http_req_duration", json_object [("values", json_object [("p(95)", VStr "fast")])])])].

(** * Text: the [str] operations the two port-patching scripts use

    A [str] is the list of its code points. *)

Module PyStr.

Definition text : Type := list N.

(** A literal of the source (ASCII). *)
Definition lit (s : string) : text :=
  List.map Ascii.N_of_ascii (String.list_ascii_of_string s).

Definition dquote : text := [34%N].
Definition newline : N := 10%N.
Definition carriage_return : N := 13%N.

(** [str.isspace] of one character: the white space [str.strip] removes. *)
Definition is_space (c : N) : bool :=
  ((9 <=? c) && (c <=? 13) || (28 <=? c) && (c <=? 32)
   || (c =? 133) || (c =? 160) || (c =? 5760)
   || (8192 <=? c) && (c <=? 8202)
   || (c =? 8232) || (c =? 8233) || (c =? 8239) || (c =? 8287)
   || (c =? 12288))%N.

(** [s.startswith(prefix)] *)
Fixpoint starts_with (prefix s : text) : bool :=
  match prefix, s with
  | [], _ => true
  | _ :: _, [] => false
  | a :: prefix', b :: s' => (a =? b)%N && starts_with prefix' s'
  end.

(** [needle in hay] *)
Fixpoint contains (needle hay : text) : bool :=
  starts_with needle hay
  || match hay with
     | [] => false
     | _ :: hay' => contains needle hay'
     end.

Fixpoint lstrip (s : text) : text :=
  match s with
  | [] => []
  | c :: s' => if is_space c then lstrip s' else s
  end.

Definition rstrip (s : text) : text := List.rev (lstrip (List.rev s)).

(** [s.strip()] *)
Definition strip (s : text) : text := rstrip (lstrip s).

(** [s.replace(old, new)] for a non-empty [old]: the occurrences of [old]
    are found from the left and do not overlap; [skip] counts the
    characters of a found occurrence still to be passed over. *)
Fixpoint replace_from (old new : text) (skip : nat) (s : text) : text :=
  match s with
  | [] => []
  | c :: s' =>
      match skip with
      | S k => replace_from old new k s'
      | O =>
          if starts_with old s
          then new ++ replace_from old new (List.length old - 1) s'
          else c :: replace_from old new 0 s'
      end
  end.

(** With an empty [old], Python puts [new] before every character and at
    the end. *)
Definition replace (old new s : text) : text :=
  match old with
  | [] => new ++ List.concat (List.map (fun c => c :: new) s)
  | _ :: _ => replace_from old new 0 s
  end.

(** Text mode reading: \r\n and a lone \r become \n. *)
Fixpoint universal_newlines (raw : text) : text :=
  match raw with
  | [] => []
  | c :: raw' =>
      if (c =? carriage_return)%N then
        match raw' with
        | d :: _ =>
            if (d =? newline)%N then universal_newlines raw'
            else newline :: universal_newlines raw'
        | [] => [newline]
        end
      else c :: universal_newlines raw'
  end.

(** [f.readlines()]: every line keeps its \n; the last one may lack it. *)
Fixpoint readlines_from (current : text) (s : text) : list text :=
  match s with
  | [] => match current with [] => [] | _ :: _ => [List.rev current] end
  | c :: s' =>
      if (c =? newline)%N then List.rev (c :: current) :: readlines_from [] s'
      else readlines_from (c :: current) s'
  end.

Definition readlines (s : text) : list text := readlines_from [] s.

(** Text mode writing: \n becomes the line separator of the platform. *)
Definition write_newlines (linesep : text) (s : text) : text :=
  List.concat (List.map (fun c => if (c =? newline)%N then linesep else [c]) s).

End PyStr.

(** * Port patching, line by line: fix_calendar_port.py

    The script reads docker-compose.yml as text, walks its lines with one
    flag (inside the calendar-service section or not), rewrites the port
    mapping and the GRPC_PORT of that section from 50059 to 50058 and
    writes the lines back. *)

Module FixCalendarPort.

Import PyStr.

Definition marker : text := lit "calendar-service:".
Definition old_ports : text := lit "50059:50059".
Definition new_ports : text := lit "50058:50058".
Definition old_mapping : text := lit "- " ++ dquote ++ old_ports ++ dquote.
Definition old_grpc : text := lit "GRPC_PORT: 50059".
Definition new_grpc : text := lit "GRPC_PORT: 50058".

(** One turn of the loop: the flag and the line after it. *)
Definition step (in_calendar_service : bool) (line : text) : bool * text :=
  if contains marker line then (true, line)
  else if in_calendar_service && starts_with old_mapping (strip line) then
    (in_calendar_service, replace old_ports new_ports line)
  else if in_calendar_service && contains old_grpc line then
    (false, replace old_grpc new_grpc line)
  else if in_calendar_service
          && negb (Nat.eqb (List.length (strip line)) 0)
          && negb (starts_with (lit "-") (strip line))
          && negb (contains (lit "GRPC_PORT") line)
          && negb (contains (lit "ports:") line)
          && negb (contains (lit "container_name") line) then
    (false, line)
  else (in_calendar_service, line).

(** [for i, line in enumerate(lines): ...], with [lines[i] = ...] as the
    line put in the result. *)
Fixpoint loop (in_calendar_service : bool) (lines : list text) : list text :=
  match lines with
  | [] => []
  | line :: rest =>
      let '(flag, line') := step in_calendar_service line in
      line' :: loop flag rest
  end.

(** The flag after the lines. *)
Fixpoint flag_after (in_calendar_service : bool) (lines : list text) : bool :=
  match lines with
  | [] => in_calendar_service
  | line :: rest => flag_after (fst (step in_calendar_service line)) rest
  end.

(** What the script writes to docker-compose.yml, from the (decoded)
    content it read there. *)
Definition fix_calendar_port (linesep : text) (raw : text) : text :=
  let lines := readlines (universal_newlines raw) in
  write_newlines linesep (List.concat (loop false lines)).

(** What the statements below say of lines and characters. *)
Definition no_marker (line : text) : Prop := contains marker line = false.


End FixCalendarPort.

(** * Port patching, by regular expression: fix_ports.py

    The script reads docker-compose.yml as one string and applies [re.sub]
    twice, with [re.DOTALL], for the patterns

      (calendar-service:.*?ports:\s+- ")(\d+):(\d+)(".*?GRPC_PORT: )(\d+)
      (storage-service:.*?ports:\s+- ")(\d+):(\d+)(".*?GRPC_PORT: )(\d+)

    The matcher below is the backtracking search of [re] for patterns of
    this shape: each piece tries its alternatives in the order of the
    engine and hands what is left of the text to its continuation; the
    first success is the match. *)

Module FixPorts.

Import PyStr.

(** The five groups of a match, and the text after it. *)
Record groups : Type := mkGroups {
  group1 : text;
  group2 : text;
  group3 : text;
  group4 : text;
  group5 : text;
  after_match : text
}.

Section Matcher.

Context {A : Type}.

(** A literal piece of the pattern. *)
Definition m_lit (l : text) (k : text -> option A) (s : text) : option A :=
  if starts_with l s then k (List.skipn (List.length l) s) else None.

(** [.*?] with [re.DOTALL]: any characters, as few as possible. *)
Fixpoint m_lazy_any (k : text -> text -> option A) (taken s : text)
  : option A :=
  match k taken s with
  | Some r => Some r
  | None =>
      match s with
      | [] => None
      | c :: s' => m_lazy_any k (taken ++ [c]) s'
      end
  end.

(** [\s+] and [\d+]: one or more characters of a class, as many as
    possible, given back one at a time. *)
Fixpoint m_greedy_plus (class : N -> bool) (k : text -> text -> option A)
    (taken s : text) : option A :=
  match s with
  | [] => None
  | c :: s' =>
      if class c then
        match m_greedy_plus class k (taken ++ [c]) s' with
        | Some r => Some r
        | None => k (taken ++ [c]) s'
        end
      else None
  end.

End Matcher.

Section Regex.

(** [\d] in a [str] pattern: the decimal digits of the Unicode tables of
    the interpreter, the ASCII digits among them.  [\s] is the white space
    of [str.isspace]. *)
Variable is_decimal : N -> bool.

(** The pattern, tried at the start of [s]. *)
Definition match_here (service : text) (s : text) : option groups :=
  m_lit service (fun s =>
  m_lazy_any (fun any1 s =>
  m_lit (lit "ports:") (fun s =>
  m_greedy_plus is_space (fun spaces s =>
  m_lit (lit "- " ++ dquote) (fun s =>
  m_greedy_plus is_decimal (fun digits2 s =>
  m_lit (lit ":") (fun s =>
  m_greedy_plus is_decimal (fun digits3 s =>
  m_lit dquote (fun s =>
  m_lazy_any (fun any2 s =>
  m_lit (lit "GRPC_PORT: ") (fun s =>
  m_greedy_plus is_decimal (fun digits5 s =>
    Some {| group1 := service ++ any1 ++ lit "ports:" ++ spaces
                        ++ lit "- " ++ dquote;
            group2 := digits2;
            group3 := digits3;
            group4 := dquote ++ any2 ++ lit "GRPC_PORT: ";
            group5 := digits5;
            after_match := s |})
  [] s) s) [] s) s) [] s) s) [] s) s) [] s) s) [] s) s.

(** The template \g<1>P:P\g<4>Q of the replacement. *)
Definition expand (ports grpc_port : text) (m : groups) : text :=
  group1 m ++ ports ++ group4 m ++ grpc_port.

(** [re.sub]: the matches are looked for from the left and do not overlap;
    [skip] counts the characters of a match still to be passed over. *)
Fixpoint sub_from (service ports grpc_port : text) (skip : nat) (s : text)
  : text :=
  match s with
  | [] => []
  | c :: s' =>
      match skip with
      | S k => sub_from service ports grpc_port k s'
      | O =>
          match match_here service s with
          | Some m =>
              expand ports grpc_port m
                ++ sub_from service ports grpc_port
                     (List.length s - List.length (after_match m) - 1) s'
          | None => c :: sub_from service ports grpc_port 0 s'
          end
      end
  end.

Definition sub (service ports grpc_port : text) (s : text) : text :=
  sub_from service ports grpc_port 0 s.

Definition calendar_service : text := lit "calendar-service:".
Definition storage_service : text := lit "storage-service:".

(** What the script writes to docker-compose.yml, from the (decoded)
    content it read there. *)
Definition fix_ports (linesep : text) (raw : text) : text :=
  let content := universal_newlines raw in
  let content :=
    sub calendar_service (lit "50058:50058") (lit "50058") content in
  let content :=
    sub storage_service (lit "50059:50059") (lit "50059") content in
  write_newlines linesep content.

End Regex.

(** [needle] occurs in [pre ++ needle] at the end only: no occurrence of
    it starts inside [pre]. *)
Definition first_at_end (needle pre : text) : bool :=
  negb (contains needle (List.removelast (pre ++ needle))).

(** Does the text start with a character of the class? *)
Definition starts_in (class : N -> bool) (s : text) : bool :=
  match s with
  | [] => false
  | c :: _ => class c
  end.

(** The ASCII digits, the part of [\d] every interpreter has. *)
Definition ascii_digit (c : N) : bool := ((48 <=? c) && (c <=? 57))%N.

End FixPorts.

(** ** Example compose files *)

Module Compose.

Import PyStr.

(** A line of text with its line end. *)
Definition line (s : string) : text := lit s ++ [newline].

(** A port mapping, as a list item between double quotes. *)
Definition mapping (indent ports : string) : text :=
  lit indent ++ lit "- " ++ dquote ++ lit ports ++ dquote.

(** A compose file without the calendar service. *)
Definition gateway_only : text :=
  line "services:" ++ line "  gateway:" ++ line "    ports:"
    ++ mapping "      " "8080:8080" ++ [newline].

(** The calendar service already on 50058. *)
Definition calendar_patched : text :=
  line "  calendar-service:" ++ line "    ports:"
    ++ mapping "      " "50058:50058" ++ [newline]
    ++ line "    environment:" ++ line "      GRPC_PORT: 50058".

(** The pieces of a calendar section on 50059. *)
Definition before_section : text := line "services:" ++ lit "  ".
Definition after_name : text :=
  [newline] ++ line "    container_name: calendar" ++ lit "    ".
Definition after_ports : text := [newline] ++ lit "      ".
Definition after_mapping : text :=
  [newline] ++ line "    environment:" ++ lit "      ".
Definition after_section : text := [newline] ++ line "  web:".

Definition calendar_section : text :=
  FixPorts.calendar_service ++ after_name ++ lit "ports:" ++ after_ports
    ++ (lit "- " ++ dquote) ++ lit "50059" ++ lit ":" ++ lit "50059"
    ++ dquote ++ after_mapping ++ lit "GRPC_PORT: " ++ lit "50059"
    ++ after_section.

(** What the pattern finds in it. *)
Definition calendar_match : FixPorts.groups :=
  {| FixPorts.group1 :=
       FixPorts.calendar_service ++ after_name ++ lit "ports:" ++ after_ports
         ++ lit "- " ++ dquote;
     FixPorts.group2 := lit "50059";
     FixPorts.group3 := lit "50059";
     FixPorts.group4 := dquote ++ after_mapping ++ lit "GRPC_PORT: ";
     FixPorts.group5 := lit "50059";
     FixPorts.after_match := after_section |}.

(** The section on 50058. *)
Definition calendar_section_patched : text :=
  FixPorts.calendar_service ++ after_name ++ lit "ports:" ++ after_ports
    ++ (lit "- " ++ dquote) ++ lit "50058:50058"
    ++ dquote ++ after_mapping ++ lit "GRPC_PORT: " ++ lit "50058"
    ++ after_section.

End Compose.

(** ** Properties *)

Section Properties.

Context {PN : PyNum}.

Lemma preserves_ret {A} (a : A) : preserves (ret (PN:=PN) a).
Proof. intros w. reflexivity. Qed.

Lemma preserves_raise {A} e : preserves (raise (PN:=PN) (A:=A) e).
Proof. intros w. reflexivity. Qed.

Lemma preserves_lift {A} (r : res A) : preserves (lift (PN:=PN) r).
Proof. intros w. reflexivity. Qed.

Lemma preserves_print e : preserves (print (PN:=PN) e).
Proof. intros w. reflexivity. Qed.

Lemma preserves_read_global {A} (f : world PN -> A) : preserves (read_global f).
Proof. intros w. reflexivity. Qed.

Lemma preserves_bind {A B} (m : M PN A) (k : A -> M PN B) :
  preserves m -> (forall a, preserves (k a)) -> preserves (bind m k).
Proof.
  intros Hm Hk w. unfold bind.
  destruct (value (m w)) as [a|e]; cbn.
  - rewrite Hm. apply Hk.
  - apply Hm.
Qed.

Lemma preserves_try_except {A} (m : M PN A) (h : exn -> M PN A) :
  preserves m -> (forall e, preserves (h e)) -> preserves (try_except m h).
Proof.
  intros Hm Hh w. unfold try_except.
  destruct (value (m w)) as [a|e]; [apply Hm|].
  destruct (is_Exception e); cbn; [|apply Hm].
  rewrite Hm. apply Hh.
Qed.

Create HintDb preserve.
Create HintDb noexit.

#[local] Hint Resolve preserves_ret preserves_raise preserves_lift
  preserves_print preserves_read_global : preserve.

Ltac preserve_step :=
  match goal with
  | |- preserves (bind _ _) => apply preserves_bind; [|intro]
  | |- preserves (try_except _ _) => apply preserves_try_except; [|intro]
  | |- preserves (sys_exit _) => apply preserves_raise
  | |- preserves (if ?b then _ else _) => destruct b
  | |- preserves (match ?x with _ => _ end) => destruct x
  | |- preserves _ => solve [auto with preserve]
  end.

Lemma preserves_threshold key : preserves (threshold key).
Proof. unfold threshold. repeat preserve_step. Qed.

Lemma preserves_load_results p : preserves (load_results p).
Proof. unfold load_results, json_load_file. repeat preserve_step. Qed.

Lemma preserves_check_threshold name v t lib :
  preserves (check_threshold name v t lib).
Proof. unfold check_threshold. repeat preserve_step. Qed.

#[local] Hint Resolve preserves_threshold preserves_load_results
  preserves_check_threshold : preserve.

Lemma preserves_analyze_results p : preserves (analyze_results p).
Proof.
  unfold analyze_results, print_summary, metric. repeat preserve_step.
Qed.

#[local] Hint Resolve preserves_analyze_results : preserve.

Lemma preserves_main_loop result_files all_passed :
  preserves (main_loop result_files all_passed).
Proof.
  revert all_passed.
  induction result_files as [|p rest IH]; intros acc; cbn [main_loop].
  - auto with preserve.
  - apply preserves_bind; [auto with preserve|]. intros passed. apply IH.
Qed.

#[local] Hint Resolve preserves_main_loop : preserve.

Lemma preserves_main : preserves (main (PN:=PN)).
Proof. unfold main. repeat preserve_step. Qed.

(** *** Only [main] exits: everything else raises ordinary exceptions *)

Lemma res_no_exit_Ok {A} (a : A) : res_no_exit (Ok a).
Proof. intros e H. discriminate. Qed.

Lemma res_no_exit_Raise {A} e :
  is_Exception e = true -> res_no_exit (Raise (A:=A) e).
Proof. intros H e' [= <-]. exact H. Qed.

Lemma res_no_exit_bind {A B} (r : res A) (k : A -> res B) :
  res_no_exit r -> (forall a, res_no_exit (k a)) -> res_no_exit (res_bind r k).
Proof.
  intros Hr Hk. destruct r as [a|e]; cbn.
  - apply Hk.
  - intros e' [= <-]. apply Hr. reflexivity.
Qed.

Lemma res_no_exit_or_overflow {A} (o : option A) : res_no_exit (or_overflow o).
Proof. destruct o; intros e; cbn; [discriminate|intros [= <-]; reflexivity]. Qed.

#[local] Hint Resolve res_no_exit_Ok res_no_exit_or_overflow : noexit.

Ltac res_no_exit_step :=
  match goal with
  | |- res_no_exit (res_bind _ _) => apply res_no_exit_bind; [|intro]
  | |- res_no_exit (Raise _) => apply res_no_exit_Raise; reflexivity
  | |- res_no_exit (if ?b then _ else _) => destruct b
  | |- res_no_exit (match ?x with _ => _ end) => destruct x
  | |- res_no_exit _ => solve [auto with noexit]
  end.

Lemma res_no_exit_py_in key c : res_no_exit (py_in key c).
Proof. unfold py_in. repeat res_no_exit_step. Qed.

Lemma res_no_exit_py_getitem c key : res_no_exit (py_getitem c key).
Proof. unfold py_getitem. repeat res_no_exit_step. Qed.

Lemma res_no_exit_py_get obj key dflt : res_no_exit (py_get obj key dflt).
Proof. unfold py_get. repeat res_no_exit_step. Qed.

Lemma res_no_exit_py_mul_int v k : res_no_exit (py_mul_int v k).
Proof. unfold py_mul_int. repeat res_no_exit_step. Qed.

Lemma res_no_exit_py_rsub_int k v : res_no_exit (py_rsub_int k v).
Proof. unfold py_rsub_int. repeat res_no_exit_step. Qed.

Lemma res_no_exit_py_le v t : res_no_exit (py_le v t).
Proof. unfold py_le. repeat res_no_exit_step. Qed.

Lemma res_no_exit_py_ge v t : res_no_exit (py_ge v t).
Proof. unfold py_ge. repeat res_no_exit_step. Qed.

Lemma res_no_exit_num_format_f n : res_no_exit (num_format_f n).
Proof. unfold num_format_f. repeat res_no_exit_step. Qed.

#[local] Hint Resolve res_no_exit_num_format_f : noexit.

Lemma res_no_exit_py_format_f v : res_no_exit (py_format_f v).
Proof. unfold py_format_f. repeat res_no_exit_step. Qed.

#[local] Hint Resolve res_no_exit_py_in res_no_exit_py_getitem
  res_no_exit_py_get res_no_exit_py_mul_int res_no_exit_py_rsub_int
  res_no_exit_py_le res_no_exit_py_ge res_no_exit_py_format_f : noexit.

Lemma res_no_exit_extract_metrics data : res_no_exit (extract_metrics data).
Proof. unfold extract_metrics. repeat res_no_exit_step. Qed.

#[local] Hint Resolve res_no_exit_extract_metrics : noexit.

Lemma no_exit_ret {A} (a : A) : no_exit (ret (PN:=PN) a).
Proof. intros w e H. discriminate. Qed.

Lemma no_exit_raise {A} e :
  is_Exception e = true -> no_exit (raise (PN:=PN) (A:=A) e).
Proof. intros H w e' [= <-]. exact H. Qed.

Lemma no_exit_lift {A} (r : res A) : res_no_exit r -> no_exit (lift (PN:=PN) r).
Proof. intros H w. exact H. Qed.

Lemma no_exit_print e : no_exit (print (PN:=PN) e).
Proof. intros w e' H. discriminate. Qed.

Lemma no_exit_read_global {A} (f : world PN -> A) : no_exit (read_global f).
Proof. intros w e' H. discriminate. Qed.

Lemma no_exit_bind {A B} (m : M PN A) (k : A -> M PN B) :
  no_exit m -> (forall a, no_exit (k a)) -> no_exit (bind m k).
Proof.
  intros Hm Hk w e. unfold bind.
  destruct (value (m w)) as [a|e'] eqn:Hv; cbn.
  - apply Hk.
  - intros [= <-]. apply (Hm w). exact Hv.
Qed.

Lemma no_exit_try_except {A} (m : M PN A) (h : exn -> M PN A) :
  no_exit m -> (forall e, no_exit (h e)) -> no_exit (try_except m h).
Proof.
  intros Hm Hh w e. unfold try_except.
  destruct (value (m w)) as [a|e'] eqn:Hv.
  - rewrite Hv. discriminate.
  - destruct (is_Exception e') eqn:He'; cbn.
    + apply Hh.
    + rewrite Hv. intros [= <-]. apply (Hm w). exact Hv.
Qed.

#[local] Hint Resolve no_exit_ret no_exit_print no_exit_read_global : noexit.

Ltac no_exit_step :=
  match goal with
  | |- no_exit (bind _ _) => apply no_exit_bind; [|intro]
  | |- no_exit (try_except _ _) => apply no_exit_try_except; [|intro]
  | |- no_exit (raise _) => apply no_exit_raise; reflexivity
  | |- no_exit (lift _) => apply no_exit_lift
  | |- no_exit (if ?b then _ else _) => destruct b
  | |- no_exit (match ?x with _ => _ end) => destruct x
  | |- res_no_exit _ => res_no_exit_step
  | |- no_exit _ => solve [auto with noexit]
  end.

Lemma no_exit_threshold key : no_exit (threshold key).
Proof. unfold threshold. repeat no_exit_step. Qed.

Lemma no_exit_load_results p : no_exit (load_results p).
Proof. unfold load_results, json_load_file. repeat no_exit_step. Qed.

Lemma no_exit_check_threshold name v t lib :
  no_exit (check_threshold name v t lib).
Proof. unfold check_threshold. repeat no_exit_step. Qed.

#[local] Hint Resolve no_exit_threshold no_exit_load_results
  no_exit_check_threshold : noexit.

Lemma no_exit_analyze_results p : no_exit (analyze_results p).
Proof.
  unfold analyze_results, print_summary, metric. repeat no_exit_step.
Qed.

(** *** The loop over the files *)

(** The per-file result the loop folds, as a boolean: [true] when the
    analysis of [p] returns [True]. *)
Lemma main_loop_cons p rest acc (w : world PN) :
  main_loop (p :: rest) acc w =
  match value (analyze_results p w) with
  | Ok passed =>
      after (printed (analyze_results p w)) (main_loop rest (acc && passed) w)
  | Raise e => mkOutcome (Raise e) w (printed (analyze_results p w))
  end.
Proof.
  cbn [main_loop]. unfold bind.
  rewrite preserves_analyze_results.
  destruct (value (analyze_results p w)); reflexivity.
Qed.

Lemma main_loop_value result_files acc (w : world PN) :
  match value (main_loop result_files acc w) with
  | Ok b => b = acc && forallb (file_passes w) result_files
  | Raise e => forallb (file_passes w) result_files = false
               /\ is_Exception e = true
  end.
Proof.
  revert acc. induction result_files as [|p rest IH]; intros acc.
  - cbn. now rewrite andb_true_r.
  - rewrite main_loop_cons. cbn [forallb]. unfold file_passes at 1 3.
    destruct (value (analyze_results p w)) as [passed|e] eqn:Hp; cbn.
    + specialize (IH (acc && passed)).
      destruct (value (main_loop rest (acc && passed) w)) as [b|e].
      * rewrite IH. destruct passed, acc; reflexivity.
      * destruct IH as [IH1 IH2]. split; [|exact IH2].
        rewrite IH1. now destruct passed.
    + split; [reflexivity|]. now apply (no_exit_analyze_results p w).
Qed.

(** *** Equations for running the monad *)

Lemma after_nil {A} (o : outcome PN A) : after [] o = o.
Proof. now destruct o. Qed.

Lemma after_after {A} tr1 tr2 (o : outcome PN A) :
  after tr1 (after tr2 o) = after (tr1 ++ tr2) o.
Proof. unfold after. cbn. now rewrite app_assoc. Qed.

Lemma bind_ret {A B} (a : A) (k : A -> M PN B) w : bind (ret a) k w = k a w.
Proof. unfold bind, ret. cbn. now destruct (k a w). Qed.

Lemma bind_print {B} e (k : unit -> M PN B) w :
  bind (print e) k w = after [e] (k tt w).
Proof. reflexivity. Qed.

Lemma bind_read_global {A B} (f : world PN -> A) (k : A -> M PN B) w :
  bind (read_global f) k w = k (f w) w.
Proof. unfold bind, read_global. cbn. now destruct (k (f w) w). Qed.

Lemma bind_lift_Ok {A B} (a : A) (k : A -> M PN B) w :
  bind (lift (Ok a)) k w = k a w.
Proof. unfold bind, lift. cbn. now destruct (k a w). Qed.

Lemma bind_lift_Raise {A B} e (k : A -> M PN B) w :
  bind (lift (Raise e)) k w = mkOutcome (Raise e) w [].
Proof. reflexivity. Qed.

Lemma bind_raise {A B} e (k : A -> M PN B) w :
  bind (raise e) k w = mkOutcome (Raise e) w [].
Proof. reflexivity. Qed.

Lemma bind_threshold {B} key t (k : num -> M PN B) w :
  THRESHOLDS w !! key = Some t ->
  bind (threshold key) k w = k t w.
Proof.
  intros H. unfold threshold. unfold bind at 1. rewrite bind_read_global.
  rewrite H. cbn. now destruct (k t w).
Qed.

Lemma THRESHOLDS_init_p95 :
  THRESHOLDS_init (PN:=PN) !! "p95_latency_ms" = Some (num_of_Z 500).
Proof. reflexivity. Qed.

Lemma THRESHOLDS_init_error_rate :
  THRESHOLDS_init (PN:=PN) !! "error_rate_percent" = Some num_lit_0_1.
Proof. reflexivity. Qed.

Lemma THRESHOLDS_init_success_rate :
  THRESHOLDS_init (PN:=PN) !! "success_rate_percent" = Some num_lit_99_9.
Proof. reflexivity. Qed.

Lemma main_spec prog p rest (w : world PN) :
  sys_argv w = prog :: p :: rest ->
  THRESHOLDS w = THRESHOLDS_init ->
  main w =
  let loop := main_loop (p :: rest) true w in
  mkOutcome
    match value loop with
    | Ok true => Raise (SystemExit 0)
    | Ok false => Raise (SystemExit 1)
    | Raise e => Raise e
    end
    w
    (banner ++ printed loop ++
     match value loop with
     | Ok true => [PFinalRule; PAllPassed]
     | Ok false => [PFinalRule; PSomeFailed]
     | Raise _ => []
     end).
Proof.
  intros Hargv Hthr. unfold main.
  rewrite bind_read_global, Hargv.
  cbn [List.length Nat.ltb Nat.leb List.tl].
  rewrite bind_ret, !bind_print.
  rewrite (bind_threshold _ (num_of_Z 500))
    by (rewrite Hthr; apply THRESHOLDS_init_p95).
  rewrite bind_print.
  rewrite (bind_threshold _ num_lit_0_1)
    by (rewrite Hthr; apply THRESHOLDS_init_error_rate).
  rewrite bind_print.
  rewrite (bind_threshold _ num_lit_99_9)
    by (rewrite Hthr; apply THRESHOLDS_init_success_rate).
  rewrite bind_print, !after_after. cbn [app].
  unfold bind at 1. rewrite preserves_main_loop.
  destruct (value (main_loop (p :: rest) true w)) as [[|]|e];
    unfold after, banner; cbn; rewrite ?app_nil_r; reflexivity.
Qed.

Lemma printed_after {A} tr (o : outcome PN A) :
  printed (after tr o) = tr ++ printed o.
Proof. reflexivity. Qed.

Lemma value_after {A} tr (o : outcome PN A) : value (after tr o) = value o.
Proof. reflexivity. Qed.

Lemma load_results_fails p (w : world PN) :
  (exists msg, files w p = Unreadable msg \/ files w p = Malformed msg) ->
  exists e,
    load_results p w = mkOutcome (Ok (VDict ∅)) w [PLoadError p e].
Proof.
  intros [msg H]. unfold load_results, try_except, json_load_file.
  rewrite bind_read_global.
  destruct H as [H|H]; rewrite H; cbn; eexists; reflexivity.
Qed.

Lemma load_results_parsed p v (w : world PN) :
  files w p = Parsed v ->
  load_results p w = mkOutcome (Ok v) w [].
Proof.
  intros H. unfold load_results, try_except, json_load_file.
  rewrite bind_read_global, H. reflexivity.
Qed.

Lemma analyze_results_prefix p (w : world PN) :
  exists tl, printed (analyze_results p w) = PAnalyzing p :: PRule :: tl.
Proof.
  unfold analyze_results. rewrite !bind_print, after_after.
  rewrite printed_after. cbn [app]. eexists. reflexivity.
Qed.

(** C8: THRESHOLDS holds exactly the three limits the module defines (500
    for p95 latency, 0.1 for the error rate, 99.9 for the success rate), and
    none of the operations of the script (load, extract, check, analyze, the
    loop, main, hence a whole run) leaves the table different from how it
    found it. *)
Theorem thresholds_table_immutable :
  (THRESHOLDS_init (PN:=PN) !! "p95_latency_ms" = Some (num_of_Z 500)
   /\ THRESHOLDS_init (PN:=PN) !! "error_rate_percent" = Some num_lit_0_1
   /\ THRESHOLDS_init (PN:=PN) !! "success_rate_percent" = Some num_lit_99_9
   /\ size (THRESHOLDS_init (PN:=PN)) = 3%nat)
  /\ (forall (w : world PN),
        (forall p, THRESHOLDS (final (load_results p w)) = THRESHOLDS w)
        /\ (forall data,
              THRESHOLDS (final (lift (extract_metrics data) w))
              = THRESHOLDS w)
        /\ (forall name v t lib,
              THRESHOLDS (final (check_threshold name v t lib w))
              = THRESHOLDS w)
        /\ (forall p, THRESHOLDS (final (analyze_results p w)) = THRESHOLDS w)
        /\ (forall result_files acc,
              THRESHOLDS (final (main_loop result_files acc w))
              = THRESHOLDS w)
        /\ THRESHOLDS (final (main w)) = THRESHOLDS w)
  /\ (forall fs argv,
        THRESHOLDS (final (run (PN:=PN) fs argv)) = THRESHOLDS_init).
Proof.
  split; [repeat split; reflexivity|split].
  - intros w.
    split; [|split; [|split; [|split; [|split]]]]; intros.
    + now rewrite preserves_load_results.
    + reflexivity.
    + now rewrite preserves_check_threshold.
    + now rewrite preserves_analyze_results.
    + now rewrite preserves_main_loop.
    + now rewrite preserves_main.
  - intros fs argv. unfold run. now rewrite preserves_main.
Qed.

Lemma run_exit_code (fs : string -> file_read PN) prog p rest :
  exit_code (value (run fs (prog :: p :: rest))) =
  if forallb (file_passes (initial_world fs (prog :: p :: rest))) (p :: rest)
  then 0 else 1.
Proof.
  unfold run. set (w := initial_world fs (prog :: p :: rest)).
  rewrite (main_spec prog p rest w) by reflexivity.
  cbn [value].
  pose proof (main_loop_value (p :: rest) true w) as H.
  destruct (value (main_loop (p :: rest) true w)) as [b|e].
  - cbn [andb] in H. rewrite <- H. now destruct b.
  - destruct H as [-> He]. now destruct e.
Qed.

(** C4: for a batch of one or more files, the exit code of the process is 0
    when the analysis of every file returns True and 1 otherwise (a file
    whose analysis returns False or raises makes it 1): the overall result
    is the conjunction of the per-file results. *)
Theorem exit_code_is_conjunction_of_files
    (fs : string -> file_read PN) (prog : string) (result_files : list string) :
  result_files <> [] ->
  exit_code (value (run fs (prog :: result_files))) =
  if forallb (file_passes (initial_world fs (prog :: result_files)))
             result_files
  then 0 else 1.
Proof.
  intros Hne. destruct result_files as [|p rest]; [contradiction|].
  apply run_exit_code.
Qed.

(** C2: when [open] or [json.load] fails for a file (unreadable or
    malformed content), the analysis of that file raises nothing: it prints
    the load error and returns False, and the loop of [main] goes on with
    the files that follow, its running result now False. *)
Theorem load_failure_fails_file_and_continues (w : world PN) (p : string) :
  (exists msg, files w p = Unreadable msg \/ files w p = Malformed msg) ->
  exists e,
    analyze_results p w
    = mkOutcome (Ok false) w [PAnalyzing p; PRule; PLoadError p e]
    /\ forall rest acc,
         main_loop (p :: rest) acc w
         = after [PAnalyzing p; PRule; PLoadError p e]
                 (main_loop rest false w).
Proof.
  intros H. destruct (load_results_fails p w H) as [e He]. exists e.
  assert (Ha : analyze_results p w
               = mkOutcome (Ok false) w [PAnalyzing p; PRule; PLoadError p e]).
  { unfold analyze_results. rewrite !bind_print, after_after.
    unfold bind at 1. rewrite He. reflexivity. }
  split; [exact Ha|].
  intros rest acc. rewrite main_loop_cons, Ha. cbn [value printed].
  now rewrite andb_false_r.
Qed.

(** C1 as the code has it: with no argument after the program name the
    script prints the usage line and exits with code 1, and nothing else
    happens; with one or more arguments it prints the banner and starts
    analyzing the first file. *)
Theorem usage_error_only_without_arguments
    (fs : string -> file_read PN) (prog : string) :
  run fs [prog]
  = mkOutcome (Raise (SystemExit 1)) (initial_world fs [prog]) [PUsage prog]
  /\ forall p rest, exists tl,
       printed (run fs (prog :: p :: rest))
       = banner ++ PAnalyzing p :: PRule :: tl.
Proof.
  split; [reflexivity|].
  intros p rest. unfold run.
  set (w := initial_world fs (prog :: p :: rest)).
  rewrite (main_spec prog p rest w) by reflexivity.
  cbn [printed]. rewrite main_loop_cons.
  destruct (analyze_results_prefix p w) as [tl Htl].
  destruct (value (analyze_results p w)) as [passed|e];
    cbn [printed after]; rewrite Htl; cbn [app]; eexists; reflexivity.
Qed.

(** *** One check *)

Lemma py_format_f_Ok (v : pyval PN) :
  py_format_f v = Ok tt ->
  exists n, as_num v = Some n /\ num_format_ok n = true.
Proof.
  destruct v; cbn; try discriminate; unfold num_format_f;
    (destruct (num_format_ok _) eqn:E; [|discriminate]); eauto.
Qed.

Lemma check_threshold_num name (v : pyval PN) n t lib w :
  as_num v = Some n ->
  num_format_ok n = true ->
  num_format_ok t = true ->
  check_threshold name v t lib w
  = mkOutcome (Ok (if lib then num_le n t else num_ge n t)) w
              [PCheck name (if lib then num_le n t else num_ge n t) v
                      (if lib then SymLe else SymGe) t].
Proof.
  intros Hv Hn Ht. unfold check_threshold.
  assert (Hcmp : (if lib then py_le v t else py_ge v t)
                 = Ok (if lib then num_le n t else num_ge n t)).
  { destruct v; try discriminate; injection Hv as <-; now destruct lib. }
  assert (Hfmt : py_format_f v = Ok tt).
  { destruct v; try discriminate; injection Hv as <-; cbn;
      unfold num_format_f; now rewrite Hn. }
  rewrite Hcmp, bind_lift_Ok, Hfmt, bind_lift_Ok.
  unfold num_format_f. rewrite Ht, bind_lift_Ok.
  rewrite bind_print. reflexivity.
Qed.


Lemma outcome_eta {A} (m : M PN A) (w : world PN) :
  preserves m -> m w = mkOutcome (value (m w)) w (printed (m w)).
Proof. intros H. specialize (H w). destruct (m w). cbn in *. now subst. Qed.

Lemma bind_outcome {A B} (m : M PN A) (k : A -> M PN B) w :
  preserves m ->
  bind m k w =
  match value (m w) with
  | Ok a => after (printed (m w)) (k a w)
  | Raise e => mkOutcome (Raise e) w (printed (m w))
  end.
Proof.
  intros H. unfold bind. rewrite H. destruct (value (m w)); reflexivity.
Qed.

(** *** The analysis of a well-formed document *)

Lemma bind_eq {A B} (m : M PN A) (k : A -> M PN B) w a tr :
  m w = mkOutcome (Ok a) w tr ->
  bind m k w = after tr (k a w).
Proof. intros H. unfold bind. rewrite H. reflexivity. Qed.

Lemma print_summary_ok label key (metrics : gmap string (pyval PN)) w :
  py_format_f (default int0 (metrics !! key)) = Ok tt ->
  print_summary label key metrics w
  = mkOutcome (Ok tt) w [PSummary label (default int0 (metrics !! key))].
Proof.
  intros H. unfold print_summary. rewrite H, bind_lift_Ok. reflexivity.
Qed.

Lemma bind_assoc {A B C} (m : M PN A) (f : A -> M PN B) (g : B -> M PN C) w :
  bind (bind m f) g w = bind m (fun a => bind (f a) g) w.
Proof.
  unfold bind. destruct (m w) as [[a|e] w' tr]; cbn; [|reflexivity].
  destruct (f a w') as [[b|e] w'' tr']; cbn; [|reflexivity].
  now rewrite app_assoc.
Qed.

Lemma analyze_results_refines p data metrics (w : world PN) :
  files w p = Parsed data ->
  py_truthy data = true ->
  extract_metrics data = Ok metrics ->
  size metrics <> 0%nat ->
  summary_ok metrics = true ->
  THRESHOLDS w = THRESHOLDS_init ->
  analyze_results p w = after (summary_block p metrics) (spec_checks metrics w).
Proof.
  intros Hfile Htruthy Hext Hsize Hsum Hthr.
  unfold analyze_results. rewrite !bind_print.
  rewrite (bind_eq _ _ _ _ _ (load_results_parsed _ _ _ Hfile)).
  rewrite Htruthy. cbn [negb].
  rewrite Hext, bind_lift_Ok.
  destruct (Nat.eqb_spec (size metrics) 0) as [E|_]; [contradiction|].
  rewrite bind_print.
  unfold summary_ok in Hsum. cbn [forallb summary_lines fst snd] in Hsum.
  repeat match type of Hsum with
         | (match ?r with Ok _ => true | Raise _ => false end && _)%bool = true =>
             let H := fresh "Hf" in
             destruct r as [[]|] eqn:H; [cbn [andb] in Hsum|discriminate Hsum];
             rewrite (bind_eq _ _ _ _ _ (print_summary_ok _ _ _ _ H))
         end.
  rewrite bind_print, !after_after. cbn [app].
  change (summary_block p metrics) with
    ([PAnalyzing p; PRule; PSummaryHeader;
      PSummary "Total Requests" (default int0 (metrics !! "total_requests"));
      PSummary "RPS" (default int0 (metrics !! "requests_per_second"));
      PSummary "Max VUs" (default int0 (metrics !! "max_vus"));
      PSummary "Avg Latency" (default int0 (metrics !! "avg_latency"));
      PSummary "P95 Latency" (default int0 (metrics !! "p95_latency"));
      PSummary "P99 Latency" (default int0 (metrics !! "p99_latency"));
      PSummary "Error Rate" (default int0 (metrics !! "error_rate"));
      PChecksHeader]).
  f_equal. clear Hf Hf0 Hf1 Hf2 Hf3 Hf4 Hf5 Hsum.
  unfold spec_checks, optional_check, metric.
  destruct (metrics !! "p95_latency") as [v1|];
    destruct (metrics !! "error_rate") as [v2|];
    rewrite ?(bool_decide_true (is_Some (Some _))) by eauto;
    rewrite ?(bool_decide_false (is_Some None)) by (intros [? [=]]).
  all: repeat
    (repeat first
       [ rewrite bind_assoc
       | rewrite bind_ret
       | rewrite (bind_threshold "p95_latency_ms" (num_of_Z 500))
           by (rewrite Hthr; reflexivity)
       | rewrite (bind_threshold "error_rate_percent" num_lit_0_1)
           by (rewrite Hthr; reflexivity)
       | rewrite (bind_threshold "success_rate_percent" num_lit_99_9)
           by (rewrite Hthr; reflexivity) ];
     try match goal with
         | |- context [bind (lift (py_rsub_int ?k ?v)) _ _] =>
             destruct (py_rsub_int k v);
             rewrite ?bind_lift_Ok, ?bind_lift_Raise
         | |- context [bind (check_threshold ?a ?b ?c ?d) _ ?w'] =>
             rewrite !(bind_outcome (check_threshold a b c d))
               by apply preserves_check_threshold;
             destruct (value (check_threshold a b c d w'))
         end).
  all: cbn [andb]; rewrite ?andb_true_r; reflexivity.
Qed.

Lemma spec_checks_no_error_rate (metrics : gmap string (pyval PN)) w :
  metrics !! "error_rate" = None ->
  spec_checks metrics w
  = optional_check "P95 Latency" (metrics !! "p95_latency")
                   (num_of_Z 500) true w.
Proof.
  intros H. unfold spec_checks. rewrite H. cbn [optional_check].
  destruct (metrics !! "p95_latency") as [v|]; cbn [optional_check].
  - pose proof (preserves_check_threshold
                  "P95 Latency" v (num_of_Z 500) true w) as Hp.
    unfold bind at 1.
    destruct (check_threshold "P95 Latency" v (num_of_Z 500) true w)
      as [[b|e] w' tr]; cbn in Hp |- *; subst w'; [|reflexivity].
    now rewrite !andb_true_r, app_nil_r.
  - now rewrite !bind_ret.
Qed.

Lemma printed_check_threshold name (v : pyval PN) t (lib : bool) w :
  Forall (fun e => exists passed,
            e = PCheck name passed v (if lib then SymLe else SymGe) t
            /\ (if lib then py_le v t else py_ge v t) = Ok passed)
         (printed (check_threshold name v t lib w)).
Proof.
  unfold check_threshold.
  destruct (if lib then py_le v t else py_ge v t) as [passed|e] eqn:Hc;
    [rewrite bind_lift_Ok|rewrite bind_lift_Raise; constructor].
  destruct (py_format_f v);
    [rewrite bind_lift_Ok|rewrite bind_lift_Raise; constructor].
  destruct (num_format_f t);
    [rewrite bind_lift_Ok|rewrite bind_lift_Raise; constructor].
  rewrite bind_print. cbn. constructor; [|constructor]. eauto.
Qed.

(** *** What extraction produces *)

Lemma extract_metrics_without_failed_group
    (d : gmap string (pyval PN)) groups metrics :
  d !! "metrics" = Some groups ->
  py_in "http_req_failed" groups = Ok false ->
  extract_metrics (VDict d) = Ok metrics ->
  metrics !! "error_rate" = None.
Proof.
  intros Hd Hin H. unfold extract_metrics in H.
  cbn [py_in py_getitem] in H. rewrite Hd in H.
  rewrite (bool_decide_true (is_Some (Some _))) in H by eauto.
  cbn [res_bind negb] in H. rewrite Hin in H.
  repeat match goal with
         | H : res_bind ?r _ = Ok _ |- _ =>
             destruct r eqn:?; [cbn [res_bind] in H|discriminate H]
         | H : (if ?b then _ else _) = Ok _ |- _ => destruct b
         | H : Ok _ = Ok _ |- _ => injection H as H; subst
         end.
  all: reflexivity.
Qed.



(** *** What the printed check lines say *)

Lemma every_print_nil {A} P (m : M PN A) w :
  printed (m w) = [] -> every_print P m w.
Proof. unfold every_print. intros ->. constructor. Qed.

Lemma every_print_print P e w : P e -> every_print P (print (PN:=PN) e) w.
Proof. intros H. unfold every_print. cbn. now constructor. Qed.

Lemma every_print_bind {A B} P (m : M PN A) (k : A -> M PN B) w :
  preserves m ->
  every_print P m w ->
  (forall a, value (m w) = Ok a -> every_print P (k a) w) ->
  every_print P (bind m k) w.
Proof.
  intros Hp Hm Hk. unfold every_print in *.
  rewrite bind_outcome by exact Hp.
  destruct (value (m w)) as [a|e]; cbn; [|exact Hm].
  apply Forall_app. split; [exact Hm|]. now apply Hk.
Qed.

Lemma load_results_value p data (w : world PN) :
  value (load_results p w) = Ok data ->
  files w p = Parsed data \/ py_truthy data = false.
Proof.
  unfold load_results, try_except, json_load_file.
  rewrite bind_read_global.
  destruct (files w p); cbn; intros [= <-]; auto.
Qed.

Lemma every_print_load_results P p (w : world PN) :
  (forall e, P (PLoadError p e)) ->
  every_print P (load_results p) w.
Proof.
  intros HP. unfold every_print, load_results, try_except, json_load_file.
  rewrite bind_read_global.
  destruct (files w p); cbn; repeat constructor; apply HP.
Qed.

Lemma every_print_print_summary P label key metrics (w : world PN) :
  (forall v, P (PSummary label v)) ->
  every_print P (print_summary label key metrics) w.
Proof.
  intros HP. unfold every_print, print_summary.
  destruct (py_format_f (default int0 (metrics !! key))) as [[]|e].
  - rewrite bind_lift_Ok. cbn. repeat constructor. apply HP.
  - rewrite bind_lift_Raise. constructor.
Qed.

Lemma preserves_print_summary label key metrics :
  preserves (print_summary (PN:=PN) label key metrics).
Proof. unfold print_summary. repeat preserve_step. Qed.

Lemma preserves_metric metrics key : preserves (metric (PN:=PN) metrics key).
Proof. unfold metric. repeat preserve_step. Qed.

#[local] Hint Resolve preserves_print_summary preserves_metric : preserve.

Lemma every_print_check_threshold P name (v : pyval PN) t (lib : bool) w :
  (forall passed,
     (if lib then py_le v t else py_ge v t) = Ok passed ->
     P (PCheck name passed v (if lib then SymLe else SymGe) t)) ->
  every_print P (check_threshold name v t lib) w.
Proof.
  intros HP. unfold every_print.
  eapply Forall_impl; [apply printed_check_threshold|].
  intros e (passed & -> & Hc). now apply HP.
Qed.

Lemma threshold_value key t (w : world PN) :
  value (threshold key w) = Ok t -> THRESHOLDS w !! key = Some t.
Proof.
  unfold threshold. rewrite bind_read_global.
  destruct (THRESHOLDS w !! key); cbn; congruence.
Qed.

Lemma printed_threshold key (w : world PN) : printed (threshold key w) = [].
Proof.
  unfold threshold. rewrite bind_read_global.
  now destruct (THRESHOLDS w !! key).
Qed.

Lemma analyze_results_checks_sound p (w : world PN) :
  Forall (check_sound w p) (printed (analyze_results p w)).
Proof.
  change (every_print (check_sound w p) (analyze_results p) w).
  unfold analyze_results.
  apply every_print_bind; [auto with preserve|now apply every_print_print|].
  intros _ _.
  apply every_print_bind; [auto with preserve|now apply every_print_print|].
  intros _ _.
  apply every_print_bind;
    [auto with preserve|now apply every_print_load_results|].
  intros data Hdata. apply load_results_value in Hdata.
  destruct (py_truthy data) eqn:Htruthy; cbn [negb];
    [|now apply every_print_nil].
  destruct Hdata as [Hfile|?]; [|congruence].
  apply every_print_bind; [auto with preserve|now apply every_print_nil|].
  intros metrics Hext. cbn in Hext.
  destruct (size metrics =? 0)%nat.
  { apply every_print_bind; [auto with preserve|now apply every_print_print|].
    intros _ _. now apply every_print_nil. }
  do 8 (apply every_print_bind;
        [auto with preserve
        |first [now apply every_print_print
               |now apply every_print_print_summary]
        |intros _ _]).
  apply every_print_bind; [auto with preserve|now apply every_print_print|].
  intros _ _. unfold metric.
  (* the three check blocks *)
  apply every_print_bind; [repeat preserve_step| |intros all_passed _].
  { destruct (metrics !! "p95_latency") as [v|] eqn:Hv;
      [rewrite bool_decide_true by eauto
      |rewrite bool_decide_false by (intros [? [=]]); now apply every_print_nil].
    apply every_print_bind; [auto with preserve|now apply every_print_nil|].
    intros ? [= <-].
    apply every_print_bind;
      [auto with preserve|apply every_print_nil, printed_threshold|].
    intros t Ht%threshold_value.
    apply every_print_bind;
      [auto with preserve| |intros; now apply every_print_nil].
    apply every_print_check_threshold. intros passed Hc.
    exists data, metrics. auto 10. }
  apply every_print_bind; [repeat preserve_step| |intros all_passed0 _].
  { destruct (metrics !! "error_rate") as [v|] eqn:Hv;
      [rewrite bool_decide_true by eauto
      |rewrite bool_decide_false by (intros [? [=]]); now apply every_print_nil].
    apply every_print_bind; [auto with preserve|now apply every_print_nil|].
    intros ? [= <-].
    apply every_print_bind;
      [auto with preserve|apply every_print_nil, printed_threshold|].
    intros t Ht%threshold_value.
    apply every_print_bind;
      [auto with preserve| |intros; now apply every_print_nil].
    apply every_print_check_threshold. intros passed Hc.
    exists data, metrics. auto 10. }
  apply every_print_bind;
    [repeat preserve_step| |intros; now apply every_print_nil].
  destruct (metrics !! "error_rate") as [v|] eqn:Hv;
    [rewrite bool_decide_true by eauto
    |rewrite bool_decide_false by (intros [? [=]]); now apply every_print_nil].
  apply every_print_bind; [auto with preserve|now apply every_print_nil|].
  intros ? [= <-].
  apply every_print_bind; [auto with preserve|now apply every_print_nil|].
  intros success_rate Hs. cbn in Hs.
  apply every_print_bind;
    [auto with preserve|apply every_print_nil, printed_threshold|].
  intros t Ht%threshold_value.
  apply every_print_bind;
    [auto with preserve| |intros; now apply every_print_nil].
  apply every_print_check_threshold. intros passed Hc.
  exists data, metrics. split; [exact Hfile|]. split; [exact Hext|].
  right. right. eauto 10.
Qed.

(** *** Documents without an error rate *)

Lemma dict_with_key_truthy (d : gmap string (pyval PN)) key v :
  d !! key = Some v -> py_truthy (VDict d) = true.
Proof.
  intros H. cbn. destruct (Nat.eqb_spec (size d) 0) as [E|]; [|reflexivity].
  apply map_size_empty_inv in E. subst d. now rewrite lookup_empty in H.
Qed.

Lemma extract_metrics_nonempty_truthy (data : pyval PN) metrics :
  extract_metrics data = Ok metrics ->
  size metrics <> 0%nat ->
  py_truthy data = true.
Proof.
  intros H Hsize. unfold extract_metrics in H.
  destruct (py_in "metrics" data) as [[|]|] eqn:Hin;
    cbn [res_bind negb] in H; [| |discriminate H].
  - destruct data as [| | | |l|d]; try discriminate Hin.
    + cbn in H. discriminate H.
    + cbn in H. discriminate H.
    + cbn in Hin. injection Hin as Hin. apply bool_decide_eq_true in Hin.
      destruct Hin as [v Hv]. eapply dict_with_key_truthy, Hv.
  - injection H as <-. now rewrite map_size_empty in Hsize.
Qed.

Lemma summary_block_no_check p (metrics : gmap string (pyval PN)) :
  Forall (fun e => forall name, ~ is_check name e) (summary_block p metrics).
Proof.
  unfold summary_block. cbn.
  repeat constructor; intros name (? & ? & ? & ? & [=]).
Qed.

(** C5: take a document whose metrics mapping has no http_req_failed
    group.  Extraction gives no error_rate key, and the analysis of the file
    prints neither an Error Rate nor a Success Rate check.  When the
    extracted metrics are not empty and the summary can be printed, the
    outcome of the analysis is the outcome of the P95 check alone (True when
    that one is absent as well): the two skipped checks leave the AND as it
    was. *)
Theorem missing_failure_group_skips_rate_checks
    (w : world PN) (p : string) (d groups : gmap string (pyval PN)) :
  files w p = Parsed (VDict d) ->
  d !! "metrics" = Some (VDict groups) ->
  groups !! "http_req_failed" = None ->
  (forall metrics,
     extract_metrics (VDict d) = Ok metrics -> metrics !! "error_rate" = None)
  /\ Forall (fun e => ~ is_check "Error Rate" e /\ ~ is_check "Success Rate" e)
            (printed (analyze_results p w))
  /\ (forall metrics,
        extract_metrics (VDict d) = Ok metrics ->
        size metrics <> 0%nat ->
        summary_ok metrics = true ->
        THRESHOLDS w = THRESHOLDS_init ->
        analyze_results p w
        = after (summary_block p metrics)
                (optional_check "P95 Latency" (metrics !! "p95_latency")
                                (num_of_Z 500) true w)).
Proof.
  intros Hfile Hd Hg.
  assert (Hnone : forall metrics,
             extract_metrics (VDict d) = Ok metrics ->
             metrics !! "error_rate" = None).
  { intros metrics. apply (extract_metrics_without_failed_group _ _ _ Hd).
    cbn. rewrite Hg. now rewrite bool_decide_false by (intros [? [=]]). }
  split; [exact Hnone|]. split.
  - eapply Forall_impl; [apply analyze_results_checks_sound|].
    intros e He.
    split; intros (passed & v & sym & t & ->);
      destruct He as (data & metrics & Hf & Hext & Hcase);
      rewrite Hfile in Hf; injection Hf as <-;
      apply Hnone in Hext;
      destruct Hcase as [(Hn & _)|[(_ & Hv & _)|(_ & (er & Hv & _) & _)]];
      congruence.
  - intros metrics Hext Hsize Hsum Hthr.
    rewrite (analyze_results_refines p (VDict d) metrics w);
      eauto using dict_with_key_truthy.
    now rewrite spec_checks_no_error_rate by auto.
Qed.

(** C9: when the metrics extracted from a file are not empty but hold
    neither p95_latency nor error_rate (and the summary can be printed), the
    analysis prints the summary, makes no threshold check at all and returns
    True; a run on that file alone exits with code 0. *)
Theorem no_checked_metric_means_pass
    (fs : string -> file_read PN) (prog p : string) (data : pyval PN)
    (metrics : gmap string (pyval PN)) :
  fs p = Parsed data ->
  extract_metrics data = Ok metrics ->
  size metrics <> 0%nat ->
  metrics !! "p95_latency" = None ->
  metrics !! "error_rate" = None ->
  summary_ok metrics = true ->
  let w := initial_world fs [prog; p] in
  analyze_results p w = mkOutcome (Ok true) w (summary_block p metrics)
  /\ check_lines (printed (analyze_results p w)) = []
  /\ exit_code (value (run fs [prog; p])) = 0.
Proof.
  intros Hfile Hext Hsize Hp95 Herr Hsum w.
  assert (Ha : analyze_results p w
               = mkOutcome (Ok true) w (summary_block p metrics)).
  { rewrite (analyze_results_refines p data metrics w)
      by eauto using extract_metrics_nonempty_truthy.
    rewrite spec_checks_no_error_rate by auto. rewrite Hp95.
    unfold after, optional_check, ret. cbn [value final printed].
    now rewrite app_nil_r. }
  split; [exact Ha|]. split.
  - rewrite Ha. reflexivity.
  - rewrite run_exit_code. cbn [forallb]. unfold file_passes.
    fold w. now rewrite Ha.
Qed.

(** *** The two checks made on the error rate *)

Lemma error_rate_check_sound (w : world PN) p passed v sym t :
  In (PCheck "Error Rate" passed v sym t) (printed (analyze_results p w)) ->
  exists data metrics,
    files w p = Parsed data
    /\ extract_metrics data = Ok metrics
    /\ metrics !! "error_rate" = Some v
    /\ THRESHOLDS w !! "error_rate_percent" = Some t
    /\ sym = SymLe
    /\ py_le v t = Ok passed.
Proof.
  intros Hin.
  pose proof (proj1 (List.Forall_forall _ _)
                (analyze_results_checks_sound p w) _ Hin) as H.
  destruct H as (data & metrics & Hf & Hext & Hcase).
  exists data, metrics.
  destruct Hcase as [(Hn & _)|[(_ & Hv & Ht & Hs & Hc)|(Hn & _)]];
    [discriminate Hn|auto 10|discriminate Hn].
Qed.

Lemma success_rate_check_sound (w : world PN) p passed v sym t :
  In (PCheck "Success Rate" passed v sym t) (printed (analyze_results p w)) ->
  exists data metrics error_rate,
    files w p = Parsed data
    /\ extract_metrics data = Ok metrics
    /\ metrics !! "error_rate" = Some error_rate
    /\ py_rsub_int 100 error_rate = Ok v
    /\ THRESHOLDS w !! "success_rate_percent" = Some t
    /\ sym = SymGe
    /\ py_ge v t = Ok passed.
Proof.
  intros Hin.
  pose proof (proj1 (List.Forall_forall _ _)
                (analyze_results_checks_sound p w) _ Hin) as H.
  destruct H as (data & metrics & Hf & Hext & Hcase).
  destruct Hcase as [(Hn & _)|[(Hn & _)|(_ & (er & Hv & Hr) & Ht & Hs & Hc)]];
    [discriminate Hn|discriminate Hn|].
  exists data, metrics, er. auto 10.
Qed.

Lemma summary_ok_line (metrics : gmap string (pyval PN)) label key :
  summary_ok metrics = true ->
  In (label, key) summary_lines ->
  py_format_f (default int0 (metrics !! key)) = Ok tt.
Proof.
  intros Hsum Hin. unfold summary_ok in Hsum.
  pose proof (proj1 (forallb_forall _ _) Hsum _ Hin) as H. cbn in H.
  now destruct (py_format_f _) as [[]|].
Qed.

Lemma check_threshold_printable name (v : pyval PN) t (lib : bool) w :
  py_format_f v = Ok tt ->
  num_format_ok t = true ->
  exists passed,
    (if lib then py_le v t else py_ge v t) = Ok passed
    /\ check_threshold name v t lib w
       = mkOutcome (Ok passed) w
                   [PCheck name passed v (if lib then SymLe else SymGe) t].
Proof.
  intros Hv Ht. destruct (py_format_f_Ok v Hv) as (n & Hn & Hok).
  exists (if lib then num_le n t else num_ge n t). split.
  - destruct v; try discriminate; injection Hn as <-; now destruct lib.
  - now apply check_threshold_num.
Qed.

Lemma success_rate_check_made
    (w : world PN) p data metrics error_rate success_rate :
  files w p = Parsed data ->
  extract_metrics data = Ok metrics ->
  summary_ok metrics = true ->
  THRESHOLDS w = THRESHOLDS_init ->
  metrics !! "error_rate" = Some error_rate ->
  py_rsub_int 100 error_rate = Ok success_rate ->
  py_format_f success_rate = Ok tt ->
  exists passed,
    py_ge success_rate num_lit_99_9 = Ok passed
    /\ In (PCheck "Success Rate" passed success_rate SymGe num_lit_99_9)
          (printed (analyze_results p w)).
Proof.
  intros Hfile Hext Hsum Hthr Herr Hsub Hfmt.
  destruct (num_limits_format_ok (PyNum:=PN)) as (L1 & L2 & L3).
  assert (Hsize : size metrics <> 0%nat).
  { intros E. apply map_size_empty_inv in E. subst metrics.
    now rewrite lookup_empty in Herr. }
  rewrite (analyze_results_refines p data metrics w)
    by eauto using extract_metrics_nonempty_truthy.
  pose proof (summary_ok_line metrics "P95 Latency" "p95_latency" Hsum) as H95.
  pose proof (summary_ok_line metrics "Error Rate" "error_rate" Hsum) as Her.
  cbn in H95, Her. rewrite Herr in Her. cbn [default] in Her.
  specialize (H95 ltac:(auto 10)). specialize (Her ltac:(auto 10)).
  destruct (check_threshold_printable "Error Rate" error_rate num_lit_0_1
              true w Her L2) as (b2 & _ & E2).
  destruct (check_threshold_printable "Success Rate" success_rate num_lit_99_9
              false w Hfmt L3) as (b3 & Hc3 & E3).
  exists b3. split; [exact Hc3|].
  unfold spec_checks. rewrite Herr. cbn [optional_check].
  destruct (metrics !! "p95_latency") as [v1|]; cbn [optional_check default] in *.
  - destruct (check_threshold_printable "P95 Latency" v1 (num_of_Z 500)
                true w H95 L1) as (b1 & _ & E1).
    rewrite (bind_eq _ _ _ _ _ E1), (bind_eq _ _ _ _ _ E2).
    rewrite bind_assoc, Hsub, bind_lift_Ok, (bind_eq _ _ _ _ _ E3).
    cbn. repeat first [left; reflexivity|right].
  - rewrite bind_ret, (bind_eq _ _ _ _ _ E2).
    rewrite bind_assoc, Hsub, bind_lift_Ok, (bind_eq _ _ _ _ _ E3).
    cbn. repeat first [left; reflexivity|right].
Qed.

End Properties.

(** ** The two arithmetics *)



Lemma pynum_le_float (a b : float) :
  pynum_le (PFloat a) (PFloat b) = PrimFloat.leb a b.
Proof. reflexivity. Qed.



Lemma pynum_format_ok_float (f : float) : pynum_format_ok (PFloat f) = true.
Proof. reflexivity. Qed.


Lemma exact_rate_comparisons_agree (e : Q) :
  Qle_bool e (1 # 10) = Qle_bool (999 # 10) (inject_Z 100 - e).
Proof.
  apply eq_true_iff_eq. rewrite !Qle_bool_iff.
  destruct e as [n d]. unfold Qle. cbn. lia.
Qed.

(** In binary64 the two checks on the error rate are not the same test: for
    a failure rate of 0.0010000000000000002 the error rate is the float
    next above 0.1 and fails its check, while 100 minus it rounds to 99.9
    and passes. *)
Example binary64_rate_checks_can_disagree :
  check_lines
    (printed (run (one_file "results.json" doc_edge)
                  [prog_name; "results.json"]))
  = [PCheck "Error Rate" false (py_float 0.10000000000000002%float)
            SymLe (PFloat 0.1%float);
     PCheck "Success Rate" true (py_float 99.9%float)
            SymGe (PFloat 99.9%float)].
Proof. reflexivity. Qed.

(** A document that parses is not a load failure.  When a group it holds
    lacks the values mapping, extraction raises KeyError, nothing catches
    it, and the run ends there with exit code 1. *)
Example group_without_values_raises :
  let o := run (one_file "results.json" doc_no_values)
               [prog_name; "results.json"; "missing.json"] in
  value o = Raise (KeyError "values")
  /\ exit_code (value o) = 1
  /\ List.last (printed o) PTitle = PRule.
Proof. repeat split. Qed.

(** C10: in exact arithmetic (every number a rational, 0.1 and 99.9 read
    exactly) [e <= 0.1] and [100 - e >= 99.9] have the same truth value for
    every e, so whenever the analysis of a file prints both the Error Rate
    and the Success Rate check, the two lines carry the same outcome. *)
Theorem rate_checks_agree_in_exact_arithmetic :
  (forall e : Q,
     num_sub (PyNum:=exact_num) (num_of_Z 100) e = Some (inject_Z 100 - e)%Q
     /\ num_le (PyNum:=exact_num) e num_lit_0_1
        = num_ge (PyNum:=exact_num) (inject_Z 100 - e)%Q num_lit_99_9)
  /\ (forall (w : world exact_num) p b1 v1 s1 t1 b2 v2 s2 t2,
        THRESHOLDS w = THRESHOLDS_init ->
        In (PCheck "Error Rate" b1 v1 s1 t1) (printed (analyze_results p w)) ->
        In (PCheck "Success Rate" b2 v2 s2 t2)
           (printed (analyze_results p w)) ->
        b1 = b2).
Proof.
  split.
  - intros e. split; [reflexivity|]. apply exact_rate_comparisons_agree.
  - intros w p b1 v1 s1 t1 b2 v2 s2 t2 Hthr H1 H2.
    apply error_rate_check_sound in H1
      as (data & metrics & Hf & Hext & Hv & Ht1 & _ & Hc1).
    apply success_rate_check_sound in H2
      as (data' & metrics' & er & Hf' & Hext' & Hv' & Hsub & Ht2 & _ & Hc2).
    rewrite Hf in Hf'. injection Hf' as <-.
    rewrite Hext in Hext'. injection Hext' as <-.
    rewrite Hv in Hv'. injection Hv' as <-.
    rewrite Hthr in Ht1, Ht2.
    rewrite THRESHOLDS_init_error_rate in Ht1. injection Ht1 as <-.
    rewrite THRESHOLDS_init_success_rate in Ht2. injection Ht2 as <-.
    destruct v1; try discriminate; cbn in Hsub, Hc1, Hc2;
      injection Hsub as <-; cbn in Hc2;
      injection Hc1 as <-; injection Hc2 as <-;
      apply exact_rate_comparisons_agree.
Qed.

(** ** The scenarios of the specification, run on Python's numbers *)

(** C7: one document with p(95) = 450 and a failure rate of 0.0005: the
    three checks (p95 latency 450 against 500, error rate 0.05 against 0.1,
    success rate 99.95 against 99.9) pass and the process exits with code
    0.  One document with p(95) = 600 and a failure rate of 0.002: the three
    checks (600, 0.2, 99.8) fail and the process exits with code 1. *)
Theorem end_to_end_scenarios :
  (let o := run (one_file "results.json" doc_pass)
                [prog_name; "results.json"] in
   check_lines (printed o)
   = [PCheck "P95 Latency" true (py_int 450) SymLe (PInt 500);
      PCheck "Error Rate" true (py_float 0.05%float)
             SymLe (PFloat 0.1%float);
      PCheck "Success Rate" true (py_float 99.95%float)
             SymGe (PFloat 99.9%float)]
   /\ exit_code (value o) = 0)
  /\ (let o := run (one_file "results.json" doc_fail)
                   [prog_name; "results.json"] in
      check_lines (printed o)
      = [PCheck "P95 Latency" false (py_int 600) SymLe (PInt 500);
         PCheck "Error Rate" false (py_float 0.2%float)
                SymLe (PFloat 0.1%float);
         PCheck "Success Rate" false (py_float 99.8%float)
                SymGe (PFloat 99.9%float)]
      /\ exit_code (value o) = 1).
Proof. split. all: split. all: reflexivity. Qed.

(** C1, where the claim fails: with exactly one argument after the program
    name the script prints no usage line; it prints the banner, analyzes
    the file and, for a document within the limits, exits with code 0. *)
Lemma one_argument_is_processed :
  let o := run (one_file "results.json" doc_pass)
               [prog_name; "results.json"] in
  value o = Raise (SystemExit 0)
  /\ exit_code (value o) = 0
  /\ List.hd_error (printed o) = Some PTitle
  /\ In (PAnalyzing "results.json") (printed o)
  /\ List.last (printed o) PTitle = PAllPassed.
Proof.
  split; [reflexivity|split; [reflexivity|]].
  split; [reflexivity|split; [|reflexivity]].
  match goal with
  | |- In _ ?l => let l' := eval vm_compute in l in change l with l'
  end.
  (cbn [In]; do 6 right; left; reflexivity).
Qed.

(** C9, where the claim fails without its proviso: a document with only the
    vus group whose max is null has non-empty metrics ({'max_vus': None})
    with neither p95_latency nor error_rate, yet the summary line of Max VUs
    cannot format None: the analysis raises TypeError before the threshold
    checks, returns nothing, and the run on that file alone exits with
    code 1. *)
Lemma unprintable_unchecked_metric_fails :
  let w := world_of doc_vus_null in
  let o := run (one_file "results.json" doc_vus_null)
               [prog_name; "results.json"] in
  extract_metrics doc_vus_null = Ok {[ "max_vus" := VNone ]}
  /\ size (metrics_of doc_vus_null) = 1%nat
  /\ metrics_of doc_vus_null !! "p95_latency" = None
  /\ metrics_of doc_vus_null !! "error_rate" = None
  /\ summary_ok (metrics_of doc_vus_null) = false
  /\ value (analyze_results "results.json" w) = Raise TypeError
  /\ check_lines (printed (analyze_results "results.json" w)) = []
  /\ value o = Raise TypeError
  /\ exit_code (value o) = 1.
Proof. repeat split. Qed.

(** C6: the value the Success Rate check compares is 100 minus the
    extracted error rate.  Every Success Rate line the analysis of a file
    prints was made on [100 - metrics['error_rate']], with [>=], against
    THRESHOLDS['success_rate_percent']; and when the error rate is present
    (and the summary and the success rate can be printed) that check is
    made.  In particular, on Python's floats, an error rate of 0.05 gives a
    success rate of 99.95, which passes the check against 99.9. *)
Theorem success_rate_is_100_minus_error_rate :
  (forall (PN : PyNum) (w : world PN) p passed v sym t,
     In (PCheck "Success Rate" passed v sym t)
        (printed (analyze_results p w)) ->
     exists data metrics error_rate,
       files w p = Parsed data
       /\ extract_metrics data = Ok metrics
       /\ metrics !! "error_rate" = Some error_rate
       /\ py_rsub_int 100 error_rate = Ok v
       /\ THRESHOLDS w !! "success_rate_percent" = Some t
       /\ sym = SymGe
       /\ py_ge v t = Ok passed)
  /\ (forall (PN : PyNum) (w : world PN) p data metrics error_rate
             success_rate,
        files w p = Parsed data ->
        extract_metrics data = Ok metrics ->
        summary_ok metrics = true ->
        THRESHOLDS w = THRESHOLDS_init ->
        metrics !! "error_rate" = Some error_rate ->
        py_rsub_int 100 error_rate = Ok success_rate ->
        py_format_f success_rate = Ok tt ->
        exists passed,
          py_ge success_rate num_lit_99_9 = Ok passed
          /\ In (PCheck "Success Rate" passed success_rate SymGe num_lit_99_9)
                (printed (analyze_results p w)))
  /\ (py_rsub_int 100 (py_float 0.05%float)
      = Ok (py_float 99.95%float)
      /\ forall (w : world python_num),
           check_threshold "Success Rate" (py_float 99.95%float)
                           (PFloat 99.9%float) false w
           = mkOutcome (Ok true) w
               [PCheck "Success Rate" true (py_float 99.95%float)
                       SymGe (PFloat 99.9%float)]).
Proof.
  split; [|split; [|split]].
  - intros PN w p passed v sym t. apply success_rate_check_sound.
  - intros PN w p data metrics error_rate success_rate.
    apply success_rate_check_made.
  - reflexivity.
  - intros w.
    apply (@check_threshold_num python_num "Success Rate"
             (py_float 99.95%float) (PFloat 99.95%float)
             (PFloat 99.9%float) false w); reflexivity.
Qed.

(** ** The hypotheses are satisfiable: each theorem at a concrete run *)

Lemma success_rate_is_100_minus_error_rate_witness :
  exists passed,
    py_ge (py_float 99.95%float) (num_lit_99_9 (PyNum:=python_num))
    = Ok passed
    /\ In (PCheck "Success Rate" passed (py_float 99.95%float) SymGe
                  num_lit_99_9)
          (printed (analyze_results "results.json" (world_of doc_pass))).
Proof.
  apply (proj1 (proj2 success_rate_is_100_minus_error_rate)
           python_num (world_of doc_pass) "results.json" doc_pass
           (metrics_of doc_pass) (py_float 0.05%float));
    reflexivity.
Defined.


Lemma exit_code_is_conjunction_of_files_witness :
  ["missing.json"; "results.json"] <> []
  /\ exit_code
       (value (run (one_file "results.json" doc_pass)
                   [prog_name; "missing.json"; "results.json"]))
     = 1.
Proof.
  split; [discriminate|].
  apply (exit_code_is_conjunction_of_files
           (one_file "results.json" doc_pass) prog_name
           ["missing.json"; "results.json"]).
  discriminate.
Defined.

Lemma load_failure_fails_file_and_continues_witness :
  exists e,
    analyze_results "missing.json" (world_of doc_pass)
    = mkOutcome (Ok false) (world_of doc_pass)
        [PAnalyzing "missing.json"; PRule; PLoadError "missing.json" e]
    /\ forall rest acc,
         main_loop ("missing.json" :: rest) acc (world_of doc_pass)
         = after [PAnalyzing "missing.json"; PRule;
                  PLoadError "missing.json" e]
                 (main_loop rest false (world_of doc_pass)).
Proof.
  apply (load_failure_fails_file_and_continues
           (world_of doc_pass) "missing.json").
  exists "No such file". left. reflexivity.
Defined.

Lemma missing_failure_group_skips_rate_checks_witness :
  duration_groups !! "http_req_failed" = None
  /\ metrics_of doc_duration !! "error_rate" = None
  /\ check_lines (printed (analyze_results "results.json"
                                            (world_of doc_duration)))
     = [PCheck "P95 Latency" true (py_float 480.5%float) SymLe (PInt 500)]
  /\ analyze_results "results.json" (world_of doc_duration)
     = after (summary_block "results.json" (metrics_of doc_duration))
         (optional_check "P95 Latency"
            (metrics_of doc_duration !! "p95_latency") (num_of_Z 500) true
            (world_of doc_duration)).
Proof.
  pose proof (missing_failure_group_skips_rate_checks
                (world_of doc_duration) "results.json"
                duration_top duration_groups eq_refl eq_refl eq_refl)
    as (H1 & _ & H3).
  split; [reflexivity|]. split; [apply H1; reflexivity|].
  split; [reflexivity|].
  apply (H3 (metrics_of doc_duration));
    [reflexivity|vm_compute; discriminate|reflexivity|reflexivity].
Defined.

Lemma no_checked_metric_means_pass_witness :
  metrics_of doc_vus !! "p95_latency" = None
  /\ metrics_of doc_vus !! "error_rate" = None
  /\ analyze_results "results.json" (world_of doc_vus)
     = mkOutcome (Ok true) (world_of doc_vus)
                 (summary_block "results.json" (metrics_of doc_vus))
  /\ check_lines (printed (analyze_results "results.json" (world_of doc_vus)))
     = []
  /\ exit_code (value (run (one_file "results.json" doc_vus)
                           [prog_name; "results.json"])) = 0.
Proof.
  split; [reflexivity|]. split; [reflexivity|].
  apply (no_checked_metric_means_pass
           (one_file "results.json" doc_vus) prog_name "results.json"
           doc_vus (metrics_of doc_vus));
    first [reflexivity|vm_compute; discriminate].
Defined.

Lemma rate_checks_agree_in_exact_arithmetic_witness :
  In (PCheck "Error Rate" true (VNum (PN:=exact_num) (500 # 10000)%Q) SymLe
             (1 # 10)%Q)
     (printed (analyze_results "results.json" (world_of doc_pass_exact)))
  /\ In (PCheck "Success Rate" true
                (VNum (PN:=exact_num) (999500 # 10000)%Q) SymGe
                (999 # 10)%Q)
        (printed (analyze_results "results.json" (world_of doc_pass_exact)))
  /\ true = true.
Proof.
  assert (H1 : In (PCheck "Error Rate" true
                          (VNum (PN:=exact_num) (500 # 10000)%Q) SymLe (1 # 10)%Q)
                  (printed (analyze_results "results.json"
                                            (world_of doc_pass_exact)))).
  { match goal with
    | |- In _ ?l => let l' := eval vm_compute in l in change l with l'
    end.
    cbn [In]. do 12 right. left. reflexivity. }
  assert (H2 : In (PCheck "Success Rate" true
                          (VNum (PN:=exact_num) (999500 # 10000)%Q)
                          SymGe (999 # 10)%Q)
                  (printed (analyze_results "results.json"
                                            (world_of doc_pass_exact)))).
  { match goal with
    | |- In _ ?l => let l' := eval vm_compute in l in change l with l'
    end.
    cbn [In]. do 13 right. left. reflexivity. }
  split; [exact H1|]. split; [exact H2|].
  exact (proj2 rate_checks_agree_in_exact_arithmetic
           (world_of doc_pass_exact) "results.json"
           _ _ _ _ _ _ _ _ eq_refl H1 H2).
Defined.

(** ** More of check_thresholds.py: loading, the loop, the exit status *)

Section Coverage.

Context {PN : PyNum}.

(** X1: [load_results] never raises.  It returns the parsed document
    having printed nothing, or, when the file cannot be read or parsed, an
    empty dict after one error line; the world is left as it was. *)
Theorem load_results_always_returns (w : world PN) (p : string) :
  (exists data,
     files w p = Parsed data
     /\ load_results p w = mkOutcome (Ok data) w [])
  \/ (exists e,
        (exists msg, files w p = Unreadable msg \/ files w p = Malformed msg)
        /\ is_Exception e = true
        /\ load_results p w = mkOutcome (Ok (VDict ∅)) w [PLoadError p e]).
Proof.
  unfold load_results, try_except, json_load_file.
  rewrite bind_read_global.
  destruct (files w p) as [msg|msg|data] eqn:Hf; cbn.
  - right. exists (OSError msg). eauto.
  - right. exists (JSONDecodeError msg). eauto.
  - left. exists data. eauto.
Qed.

(** X2: a document that parses to a falsy value ({}, [], null, false, 0,
    the empty string) fails its file without a word: the analysis prints
    the two header lines only and returns False. *)
Theorem falsy_document_fails_silently (w : world PN) (p : string) data :
  files w p = Parsed data ->
  py_truthy data = false ->
  analyze_results p w = mkOutcome (Ok false) w [PAnalyzing p; PRule].
Proof.
  intros Hfile Hfalsy. unfold analyze_results.
  rewrite !bind_print, after_after.
  rewrite (bind_eq _ _ _ _ _ (load_results_parsed _ _ _ Hfile)).
  rewrite Hfalsy. reflexivity.
Qed.

(** What the loop prints is what the analyses print, file after file. *)
Lemma main_loop_returning result_files acc (w : world PN) :
  Forall (fun q => exists b, value (analyze_results q w) = Ok b) result_files ->
  main_loop result_files acc w
  = mkOutcome (Ok (acc && forallb (file_passes w) result_files)) w
      (concat (List.map (fun q => printed (analyze_results q w)) result_files)).
Proof.
  intros H. revert acc.
  induction H as [|q rest [b Hb] _ IH]; intros acc.
  - cbn. now rewrite andb_true_r.
  - assert (Hq : file_passes w q = b).
    { unfold file_passes. rewrite Hb. now destruct b. }
    rewrite main_loop_cons, Hb, IH. unfold after.
    cbn [value final printed forallb List.map concat]. rewrite Hq.
    now rewrite andb_assoc.
Qed.

Lemma main_loop_raising pre p rest acc e (w : world PN) :
  Forall (fun q => exists b, value (analyze_results q w) = Ok b) pre ->
  value (analyze_results p w) = Raise e ->
  main_loop (pre ++ p :: rest) acc w
  = mkOutcome (Raise e) w
      (concat (List.map (fun q => printed (analyze_results q w))
                        (pre ++ [p]))).
Proof.
  intros H He. revert acc.
  induction H as [|q pre' [b Hb] _ IH]; intros acc.
  - cbn [app]. rewrite main_loop_cons, He. cbn. now rewrite app_nil_r.
  - cbn [app]. rewrite main_loop_cons, Hb, IH. reflexivity.
Qed.

(** X3: when the analysis of every file returns, a run prints the banner,
    then the report of each file in argument order, then the final rule and
    the line that matches the exit code: all-passed with code 0 when every
    file passed, some-failed with code 1 otherwise. *)
Theorem run_reports_files_in_order
    (fs : string -> file_read PN) (prog p : string) (rest : list string) :
  let w := initial_world fs (prog :: p :: rest) in
  let passed := forallb (file_passes w) (p :: rest) in
  Forall (fun q => exists b, value (analyze_results q w) = Ok b) (p :: rest) ->
  run fs (prog :: p :: rest)
  = mkOutcome (Raise (SystemExit (if passed then 0 else 1))) w
      (banner
       ++ concat (List.map (fun q => printed (analyze_results q w)) (p :: rest))
       ++ [PFinalRule; if passed then PAllPassed else PSomeFailed]).
Proof.
  intros w passed H. unfold run. fold w.
  rewrite (main_spec prog p rest w) by reflexivity.
  cbv zeta. rewrite (main_loop_returning _ _ _ H).
  cbn [value printed andb]. fold passed. now destruct passed.
Qed.

(** X4: an exception raised by the analysis of one file is caught nowhere:
    the run ends there.  The files before it are reported, the files after
    it are not looked at, no final line is printed, and the exit code is
    1. *)
Theorem uncaught_exception_ends_the_run
    (fs : string -> file_read PN) (prog p : string) (pre rest : list string)
    (e : exn) :
  let w := initial_world fs (prog :: pre ++ p :: rest) in
  Forall (fun q => exists b, value (analyze_results q w) = Ok b) pre ->
  value (analyze_results p w) = Raise e ->
  run fs (prog :: pre ++ p :: rest)
  = mkOutcome (Raise e) w
      (banner
       ++ concat (List.map (fun q => printed (analyze_results q w))
                           (pre ++ [p])))
  /\ exit_code (value (run fs (prog :: pre ++ p :: rest))) = 1.
Proof.
  intros w Hpre He.
  assert (Hrun : run fs (prog :: pre ++ p :: rest)
                 = mkOutcome (Raise e) w
                     (banner
                      ++ concat (List.map
                                   (fun q => printed (analyze_results q w))
                                   (pre ++ [p])))).
  { pose proof (main_loop_raising pre p rest true e w Hpre He) as Hloop.
    assert (Hargv : sys_argv w = prog :: pre ++ p :: rest) by reflexivity.
    assert (Hthr : THRESHOLDS w = THRESHOLDS_init) by reflexivity.
    unfold run. fold w. clearbody w.
    destruct pre as [|q pre']; cbn [app] in *;
      rewrite (main_spec _ _ _ w Hargv Hthr); cbv zeta; rewrite Hloop;
      cbn [value printed]; now rewrite app_nil_r. }
  split; [exact Hrun|]. rewrite Hrun. cbn [value exit_code].
  pose proof (no_exit_analyze_results p w e He) as Hex.
  now destruct e.
Qed.

(** X5: whatever the arguments and whatever the files hold, the exit
    status of the process is 0 or 1. *)
Theorem exit_code_is_0_or_1 (fs : string -> file_read PN) (argv : list string) :
  exit_code (value (run fs argv)) = 0 \/ exit_code (value (run fs argv)) = 1.
Proof.
  destruct argv as [|prog [|p rest]]; [right; reflexivity..|].
  rewrite run_exit_code. destruct (forallb _ _); auto.
Qed.

End Coverage.

(** ** More of check_thresholds.py: what extraction yields *)

Section ExtractionProperties.

Context {PN : PyNum}.

Ltac invert_extract :=
  repeat match goal with
         | H : res_bind ?r _ = Ok _ |- _ =>
             destruct r eqn:?; [cbn [res_bind] in H|discriminate H]
         | H : (if ?b then _ else _) = Ok _ |- _ => destruct b
         | H : Ok _ = Ok _ |- _ => injection H as H; subst
         | H : py_in _ (VDict _) = Ok _ |- _ =>
             cbn [py_in] in H; injection H as H
         | H : bool_decide (is_Some (?m !! ?k)) = true |- _ =>
             apply bool_decide_eq_true in H; destruct H as [? H]
         | H : bool_decide (is_Some (?m !! ?k)) = false |- _ =>
             apply bool_decide_eq_false in H;
             apply eq_None_not_Some in H
         | H : py_getitem (VDict ?g) ?k = Ok _ |- _ =>
             cbn [py_getitem] in H;
             destruct (g !! k) eqn:?; [|discriminate H]
         | H : py_getitem ?v _ = Ok _ |- _ =>
             is_var v; destruct v; try discriminate H
         | H : py_get ?v _ _ = Ok _ |- _ =>
             is_var v; destruct v; try discriminate H
         | H : py_get (VDict _) _ _ = Ok _ |- _ => cbn [py_get] in H
         | H : Some _ = Some _ |- _ => injection H as H; subst
         end.

Lemma extract_metrics_inversion
    (d groups : gmap string (pyval PN)) (metrics : gmap string (pyval PN)) :
  d !! "metrics" = Some (VDict groups) ->
  extract_metrics (VDict d) = Ok metrics ->
  (metrics !! "avg_latency" = group_field groups "http_req_duration" "avg"
   /\ metrics !! "p95_latency" = group_field groups "http_req_duration" "p(95)"
   /\ metrics !! "p99_latency" = group_field groups "http_req_duration" "p(99)"
   /\ metrics !! "max_latency" = group_field groups "http_req_duration" "max"
   /\ match group_field groups "http_req_failed" "rate" with
      | Some rate =>
          exists percent,
            py_mul_int rate 100 = Ok percent
            /\ metrics !! "error_rate" = Some percent
      | None => metrics !! "error_rate" = None
      end
   /\ metrics !! "total_requests" = group_field groups "http_reqs" "count"
   /\ metrics !! "requests_per_second" = group_field groups "http_reqs" "rate"
   /\ metrics !! "total_iterations" = group_field groups "iterations" "count"
   /\ metrics !! "max_vus" = group_field groups "vus" "max")
  /\ (forall key, is_Some (metrics !! key) -> In key metric_names)
  /\ extractable groups = true.
Proof.
  intros Hd H. unfold extract_metrics in H.
  cbn [py_in py_getitem] in H. rewrite Hd in H.
  rewrite (bool_decide_true (is_Some (Some _))) in H by eauto.
  cbn [res_bind negb] in H.
  invert_extract.
  all: split; [|split].
  all: try (intros key [v Hk];
            repeat (rewrite lookup_insert in Hk;
                    destruct (decide (_ = key)) as [<-|_];
                    [cbn; auto 12|]);
            now rewrite lookup_empty in Hk).
  all: unfold extractable, group_field, group_shape_ok;
    cbn [forallb group_names];
    repeat match goal with H : _ !! _ = _ |- _ => rewrite H; clear H end;
    repeat match goal with
           | H : py_mul_int _ _ = Ok _ |- _ => rewrite H
           end;
    repeat split; try reflexivity; eauto.
Qed.

End ExtractionProperties.

Section ExtractionProperties2.

Context {PN : PyNum}.

Lemma group_shape_ok_cases (groups : gmap string (pyval PN)) group :
  group_shape_ok groups group = true ->
  groups !! group = None
  \/ exists g vals,
       groups !! group = Some (VDict g) /\ g !! "values" = Some (VDict vals).
Proof.
  unfold group_shape_ok.
  destruct (groups !! group) as [[| | | | |g]|]; try discriminate; auto.
  destruct (g !! "values") as [[| | | | |vals]|] eqn:E; try discriminate.
  eauto.
Qed.

Lemma py_in_dict_Some (g : gmap string (pyval PN)) key v :
  g !! key = Some v -> py_in key (VDict g) = Ok true.
Proof. intros H. cbn. now rewrite bool_decide_true by eauto. Qed.

Lemma py_in_dict_None (g : gmap string (pyval PN)) key :
  g !! key = None -> py_in key (VDict g) = Ok false.
Proof.
  intros H. cbn. rewrite H.
  now rewrite bool_decide_false by (intros [? [=]]).
Qed.

Lemma py_getitem_dict (g : gmap string (pyval PN)) key v :
  g !! key = Some v -> py_getitem (VDict g) key = Ok v.
Proof. intros H. cbn. now rewrite H. Qed.

Lemma extract_metrics_total (d groups : gmap string (pyval PN)) :
  d !! "metrics" = Some (VDict groups) ->
  extractable groups = true ->
  exists metrics, extract_metrics (VDict d) = Ok metrics.
Proof.
  intros Hd H. unfold extractable in H.
  cbn [forallb group_names] in H.
  apply andb_prop in H as [H Hrate].
  apply andb_prop in H as [H1 H]. apply andb_prop in H as [H2 H].
  apply andb_prop in H as [H3 H]. apply andb_prop in H as [H4 H].
  apply andb_prop in H as [H5 _].
  unfold extract_metrics.
  rewrite (py_in_dict_Some _ _ _ Hd), (py_getitem_dict _ _ _ Hd).
  cbn [res_bind negb].
  destruct (group_shape_ok_cases _ _ H1) as [E|(g & vals & E1 & E2)];
    [rewrite (py_in_dict_None _ _ E)
    |rewrite (py_in_dict_Some _ _ _ E1), (py_getitem_dict _ _ _ E1)];
    cbn [res_bind]; rewrite ?(py_getitem_dict _ _ _ E2); cbn [res_bind py_get].
  all: unfold group_field in Hrate.
  all: destruct (group_shape_ok_cases _ _ H2) as [E'|(g' & vals' & E1' & E2')];
    [rewrite (py_in_dict_None _ _ E')
    |rewrite (py_in_dict_Some _ _ _ E1'), (py_getitem_dict _ _ _ E1');
     rewrite E1', E2' in Hrate;
     destruct (py_mul_int (default int0 (vals' !! "rate")) 100) eqn:Hmul;
     [|discriminate Hrate]];
    cbn [res_bind]; rewrite ?(py_getitem_dict _ _ _ E2'); cbn [res_bind py_get];
    rewrite ?Hmul; cbn [res_bind].
  all: clear Hrate.
  all: repeat match goal with
              | Hk : group_shape_ok _ ?k = true |- context [py_in ?k _] =>
                  let E := fresh "E" in
                  let g := fresh "g" in
                  let vals := fresh "vals" in
                  let Ea := fresh "Ea" in
                  let Eb := fresh "Eb" in
                  destruct (group_shape_ok_cases _ _ Hk)
                    as [E|(g & vals & Ea & Eb)];
                  [rewrite (py_in_dict_None _ _ E)
                  |rewrite (py_in_dict_Some _ _ _ Ea),
                     (py_getitem_dict _ _ _ Ea)];
                  cbn [res_bind]; rewrite ?(py_getitem_dict _ _ _ Eb);
                  cbn [res_bind py_get]; clear Hk
              end.
  all: eexists; reflexivity.
Qed.

(** X6: for a document whose 'metrics' is a mapping, extraction returns
    (raises nothing) exactly when every known group that is present is a
    dict whose 'values' is a dict, and the failure rate, if there is one,
    can be multiplied by 100.  A present group of any other shape makes
    extraction raise. *)
Theorem extraction_succeeds_iff_extractable
    (d groups : gmap string (pyval PN)) :
  d !! "metrics" = Some (VDict groups) ->
  (exists metrics, extract_metrics (VDict d) = Ok metrics)
  <-> extractable groups = true.
Proof.
  intros Hd. split.
  - intros [metrics H].
    apply (extract_metrics_inversion d groups metrics Hd H).
  - now apply extract_metrics_total.
Qed.

(** X7: what extraction returns is read off the groups field by field.
    Each metric is the named field of its group's values, 0 when the field
    is missing and absent when the group is; error_rate is the rate times
    100; no other key is ever set. *)
Theorem extracted_metrics_are_group_fields
    (d groups metrics : gmap string (pyval PN)) :
  d !! "metrics" = Some (VDict groups) ->
  extract_metrics (VDict d) = Ok metrics ->
  (metrics !! "avg_latency" = group_field groups "http_req_duration" "avg"
   /\ metrics !! "p95_latency" = group_field groups "http_req_duration" "p(95)"
   /\ metrics !! "p99_latency" = group_field groups "http_req_duration" "p(99)"
   /\ metrics !! "max_latency" = group_field groups "http_req_duration" "max"
   /\ match group_field groups "http_req_failed" "rate" with
      | Some rate =>
          exists percent,
            py_mul_int rate 100 = Ok percent
            /\ metrics !! "error_rate" = Some percent
      | None => metrics !! "error_rate" = None
      end
   /\ metrics !! "total_requests" = group_field groups "http_reqs" "count"
   /\ metrics !! "requests_per_second" = group_field groups "http_reqs" "rate"
   /\ metrics !! "total_iterations" = group_field groups "iterations" "count"
   /\ metrics !! "max_vus" = group_field groups "vus" "max")
  /\ (forall key, is_Some (metrics !! key) -> In key metric_names).
Proof.
  intros Hd H.
  destruct (extract_metrics_inversion d groups metrics Hd H) as (H1 & H2 & _).
  now split.
Qed.

Lemma extract_metrics_no_metrics_key (d : gmap string (pyval PN)) :
  d !! "metrics" = None -> extract_metrics (VDict d) = Ok ∅.
Proof.
  intros H. unfold extract_metrics. now rewrite (py_in_dict_None _ _ H).
Qed.

Lemma extract_metrics_no_known_group (d groups : gmap string (pyval PN)) :
  d !! "metrics" = Some (VDict groups) ->
  Forall (fun group => groups !! group = None) group_names ->
  extract_metrics (VDict d) = Ok ∅.
Proof.
  intros Hd H. unfold group_names in H.
  repeat match goal with
         | H : Forall _ (_ :: _) |- _ =>
             let E := fresh "E" in
             apply Forall_cons_1 in H as [E H]
         end.
  unfold extract_metrics.
  rewrite (py_in_dict_Some _ _ _ Hd), (py_getitem_dict _ _ _ Hd).
  cbn [res_bind negb].
  now rewrite !py_in_dict_None by assumption.
Qed.

(** X8: a parsed document that is a non-empty dict but has no 'metrics'
    key, or whose 'metrics' mapping holds none of the five known groups,
    yields no metric: the analysis prints the no-metrics line, checks
    nothing and returns False. *)
Theorem document_without_known_groups_fails
    (w : world PN) (p : string) (d : gmap string (pyval PN)) :
  files w p = Parsed (VDict d) ->
  size d <> 0%nat ->
  d !! "metrics" = None
  \/ (exists groups,
        d !! "metrics" = Some (VDict groups)
        /\ Forall (fun group => groups !! group = None) group_names) ->
  extract_metrics (VDict d) = Ok ∅
  /\ analyze_results p w
     = mkOutcome (Ok false) w [PAnalyzing p; PRule; PNoMetrics].
Proof.
  intros Hfile Hsize Hcase.
  assert (Hext : extract_metrics (VDict d) = Ok ∅).
  { destruct Hcase as [H|(groups & Hd & H)];
      eauto using extract_metrics_no_metrics_key,
                  extract_metrics_no_known_group. }
  split; [exact Hext|].
  unfold analyze_results. rewrite !bind_print, after_after.
  rewrite (bind_eq _ _ _ _ _ (load_results_parsed _ _ _ Hfile)).
  assert (Ht : py_truthy (VDict d) = true).
  { cbn. now destruct (Nat.eqb_spec (size d) 0). }
  rewrite Ht. cbn [negb]. rewrite Hext, bind_lift_Ok.
  rewrite map_size_empty. cbn [Nat.eqb]. rewrite bind_print. reflexivity.
Qed.

Lemma bind_raise_eq {A B} (m : M PN A) (k : A -> M PN B) w e tr :
  m w = mkOutcome (Raise e) w tr ->
  bind m k w = mkOutcome (Raise e) w tr.
Proof. intros H. unfold bind. now rewrite H. Qed.

Lemma print_summary_raise label key (metrics : gmap string (pyval PN)) w e :
  py_format_f (default int0 (metrics !! key)) = Raise e ->
  print_summary label key metrics w = mkOutcome (Raise e) w [].
Proof.
  intros H. unfold print_summary. now rewrite H, bind_lift_Raise.
Qed.

Lemma py_format_f_raises (v : pyval PN) e :
  py_format_f v = Raise e ->
  e = ValueError \/ e = TypeError \/ e = OverflowError.
Proof.
  destruct v; cbn; unfold num_format_f;
    try destruct (num_format_ok _); intros [= <-]; auto.
Qed.

(** X9: when one of the values the summary block formats cannot be
    formatted as a float, with [:.0f] or [:.2f] (a string, null, a list, a
    dict, an int beyond the range of float), the analysis raises
    ValueError, TypeError or OverflowError while printing the summary: no
    threshold is checked and no result is returned. *)
Theorem unprintable_summary_raises_before_checks
    (w : world PN) (p : string) data (metrics : gmap string (pyval PN)) :
  files w p = Parsed data ->
  extract_metrics data = Ok metrics ->
  size metrics <> 0%nat ->
  summary_ok metrics = false ->
  exists e,
    value (analyze_results p w) = Raise e
    /\ (e = ValueError \/ e = TypeError \/ e = OverflowError)
    /\ check_lines (printed (analyze_results p w)) = [].
Proof.
  intros Hfile Hext Hsize Hsum.
  pose proof (extract_metrics_nonempty_truthy data metrics Hext Hsize)
    as Htruthy.
  unfold analyze_results. rewrite !bind_print.
  rewrite (bind_eq _ _ _ _ _ (load_results_parsed _ _ _ Hfile)).
  rewrite Htruthy. cbn [negb]. rewrite Hext, bind_lift_Ok.
  destruct (Nat.eqb_spec (size metrics) 0) as [E|_]; [contradiction|].
  rewrite bind_print.
  unfold summary_ok in Hsum. cbn [forallb summary_lines fst snd] in Hsum.
  repeat match type of Hsum with
         | (match ?r with Ok _ => true | Raise _ => false end && _)%bool
           = false =>
             let H := fresh "Hf" in
             destruct r as [[]|e] eqn:H;
             [cbn [andb] in Hsum;
              rewrite (bind_eq _ _ _ _ _ (print_summary_ok _ _ _ _ H))
             |rewrite (bind_raise_eq _ _ _ _ _
                         (print_summary_raise _ _ _ _ _ H));
              exists e; split; [reflexivity|];
              split; [exact (py_format_f_raises _ _ H)|reflexivity]]
         end.
  discriminate Hsum.
Qed.


End ExtractionProperties2.

(** ** Properties of the text operations *)

Section PyStrProperties.

Import PyStr.

Local Open Scope nat_scope.

Lemma starts_with_spec (prefix s : text) :
  starts_with prefix s = true <-> exists rest, s = prefix ++ rest.
Proof.
  revert s. induction prefix as [|a prefix IH]; intros s; cbn.
  - split; eauto.
  - destruct s as [|b s]; cbn.
    + split; [discriminate|intros [rest [=]]].
    + rewrite andb_true_iff, N.eqb_eq, IH. split.
      * intros [-> [rest ->]]. eauto.
      * intros [rest [= -> ->]]. eauto.
Qed.

Lemma starts_with_app (prefix rest : text) :
  starts_with prefix (prefix ++ rest) = true.
Proof. apply starts_with_spec. eauto. Qed.

Lemma contains_spec (needle hay : text) :
  contains needle hay = true <-> exists pre post, hay = pre ++ needle ++ post.
Proof.
  induction hay as [|c hay IH]; cbn.
  - rewrite orb_false_r, starts_with_spec. split.
    + intros [rest H]. exists [], rest. exact H.
    + intros (pre & post & H). destruct pre as [|? pre]; [eauto|].
      discriminate H.
  - rewrite orb_true_iff, starts_with_spec, IH. split.
    + intros [[rest H]|(pre & post & ->)].
      * exists [], rest. exact H.
      * exists (c :: pre), post. reflexivity.
    + intros (pre & post & H). destruct pre as [|c' pre].
      * left. eauto.
      * right. injection H as -> ->. eauto.
Qed.

Lemma contains_app_r (needle a b : text) :
  contains needle b = true -> contains needle (a ++ b) = true.
Proof.
  rewrite !contains_spec. intros (pre & post & ->).
  exists (a ++ pre), post. now rewrite <- List.app_assoc.
Qed.

Lemma contains_app_l (needle a b : text) :
  contains needle a = true -> contains needle (a ++ b) = true.
Proof.
  rewrite !contains_spec. intros (pre & post & ->).
  exists pre, (post ++ b). now rewrite <- !List.app_assoc.
Qed.

Lemma starts_with_contains (needle hay : text) :
  starts_with needle hay = true -> contains needle hay = true.
Proof. destruct hay; cbn; intros ->; reflexivity. Qed.

(** *** [replace] *)

Lemma replace_from_contains_new (old new s : text) :
  old <> [] ->
  contains old s = true ->
  contains new (replace_from old new 0 s) = true.
Proof.
  intros Hold. induction s as [|c s IH]; cbn [contains replace_from].
  - destruct old; [contradiction|discriminate].
  - destruct (starts_with old (c :: s)) eqn:Hs; cbn [orb].
    + intros _. apply contains_app_l, starts_with_contains.
      rewrite <- (List.app_nil_r new) at 2. apply starts_with_app.
    + intros H. cbn [contains]. rewrite (IH H). apply orb_true_r.
Qed.

Lemma replace_contains_new (old new s : text) :
  old <> [] ->
  contains old s = true ->
  contains new (replace old new s) = true.
Proof.
  intros Hold H. destruct old as [|a old]; [contradiction|].
  now apply replace_from_contains_new.
Qed.

Lemma replace_from_absent (old new s : text) :
  contains old s = false -> replace_from old new 0 s = s.
Proof.
  induction s as [|c s IH]; cbn [contains replace_from]; [reflexivity|].
  intros [Hs H]%orb_false_elim. rewrite Hs. now rewrite IH.
Qed.

(** *** [strip] *)

Lemma lstrip_spaces (indent rest : text) :
  forallb is_space indent = true -> lstrip (indent ++ rest) = lstrip rest.
Proof.
  induction indent as [|c indent IH]; cbn; [reflexivity|].
  intros [Hc H]%andb_prop. rewrite Hc. now apply IH.
Qed.

Lemma lstrip_nonspace (c : N) (a b : text) :
  is_space c = false -> lstrip (a ++ c :: b) = lstrip a ++ c :: b.
Proof.
  intros Hc. induction a as [|x a IH]; cbn.
  - now rewrite Hc.
  - destruct (is_space x); [exact IH|reflexivity].
Qed.

Lemma rstrip_nonspace (c : N) (a b : text) :
  is_space c = false -> rstrip (a ++ c :: b) = a ++ c :: rstrip b.
Proof.
  intros Hc. unfold rstrip.
  replace (List.rev (a ++ c :: b)) with (List.rev b ++ c :: List.rev a).
  - rewrite (lstrip_nonspace c _ _ Hc).
    rewrite List.rev_app_distr. cbn [List.rev].
    rewrite List.rev_involutive, <- List.app_assoc. reflexivity.
  - rewrite List.rev_app_distr. cbn [List.rev].
    now rewrite <- List.app_assoc.
Qed.

(** *** Lines *)

Lemma readlines_from_concat (current s : text) :
  List.concat (readlines_from current s) = List.rev current ++ s.
Proof.
  revert current. induction s as [|c s IH]; intros current; cbn.
  - destruct current; cbn; now rewrite ?List.app_nil_r.
  - destruct (N.eqb_spec c newline) as [->|_]; cbn.
    + rewrite IH. cbn. now rewrite <- List.app_assoc.
    + rewrite IH. cbn. now rewrite <- List.app_assoc.
Qed.

Lemma readlines_concat (s : text) : List.concat (readlines s) = s.
Proof. apply readlines_from_concat. Qed.

(** *** Needles and haystacks *)

Lemma contains_needle_app_l (a b s : text) :
  contains (a ++ b) s = true -> contains a s = true.
Proof.
  rewrite !contains_spec. intros (pre & post & ->).
  exists pre, (b ++ post). now rewrite <- List.app_assoc.
Qed.

Lemma contains_needle_app_r (a b s : text) :
  contains (a ++ b) s = true -> contains b s = true.
Proof.
  rewrite !contains_spec. intros (pre & post & ->).
  exists (pre ++ a), post. now rewrite <- !List.app_assoc.
Qed.

Lemma starts_with_needle_app_l (a b s : text) :
  starts_with (a ++ b) s = true -> starts_with a s = true.
Proof.
  rewrite !starts_with_spec. intros (rest & ->).
  exists (b ++ rest). now rewrite <- List.app_assoc.
Qed.

Lemma contains_false_inside (needle a s b : text) :
  contains needle (a ++ s ++ b) = false -> contains needle s = false.
Proof.
  intros H. destruct (contains needle s) eqn:Hs; [|reflexivity].
  rewrite <- H. symmetry. now apply contains_app_r, contains_app_l.
Qed.

Lemma starts_with_other_head (a c : N) (needle s : text) :
  c <> a -> starts_with (a :: needle) (c :: s) = false.
Proof.
  intros Hc. cbn. destruct (N.eqb_spec a c) as [->|_]; [contradiction|].
  reflexivity.
Qed.

Lemma contains_other_prefix (a : N) (needle pre s : text) :
  List.Forall (fun c => c <> a) pre ->
  contains (a :: needle) (pre ++ s) = contains (a :: needle) s.
Proof.
  induction 1 as [|c pre Hc _ IH]; [reflexivity|].
  cbn [app contains]. now rewrite (starts_with_other_head _ _ _ _ Hc), IH.
Qed.

Lemma is_space_range (c : N) :
  is_space c = true -> (c <= 32 \/ 133 <= c)%N.
Proof.
  unfold is_space. intros H.
  destruct (N.le_gt_cases c 32) as [|Hlo]; [now left|].
  destruct (N.le_gt_cases 133 c) as [|Hhi]; [now right|].
  exfalso. revert H.
  rewrite !orb_true_iff, !andb_true_iff, !N.leb_le, !N.eqb_eq. lia.
Qed.

Lemma spaces_are_not (a : N) (indent : text) :
  (32 < a < 133)%N ->
  forallb is_space indent = true -> List.Forall (fun c => c <> a) indent.
Proof.
  intros Ha H. apply List.Forall_forall. intros c Hc.
  rewrite forallb_forall in H. specialize (H c Hc).
  apply is_space_range in H. lia.
Qed.

(** *** [replace], continued *)

Lemma replace_absent (old new s : text) :
  old <> [] -> contains old s = false -> replace old new s = s.
Proof.
  intros Hold H. destruct old; [contradiction|].
  now apply replace_from_absent.
Qed.

Lemma replace_from_other_prefix (a : N) (old new pre s : text) :
  List.Forall (fun c => c <> a) pre ->
  replace_from (a :: old) new 0 (pre ++ s)
  = pre ++ replace_from (a :: old) new 0 s.
Proof.
  induction 1 as [|c pre Hc _ IH]; [reflexivity|].
  cbn [app replace_from].
  now rewrite (starts_with_other_head _ _ _ _ Hc), IH.
Qed.



(** *** Lines, continued *)

Lemma readlines_inside (s line : text) :
  In line (readlines s) -> exists a b, s = a ++ line ++ b.
Proof.
  intros Hin. apply List.in_split in Hin as (l1 & l2 & Hsplit).
  exists (List.concat l1), (List.concat l2).
  rewrite <- (readlines_concat s) at 1. rewrite Hsplit.
  now rewrite List.concat_app.
Qed.

Lemma readlines_without (needle s : text) :
  contains needle s = false ->
  List.Forall (fun line => contains needle line = false) (readlines s).
Proof.
  intros H. apply List.Forall_forall. intros line Hin.
  apply readlines_inside in Hin as (a & b & Hs). rewrite Hs in H.
  exact (contains_false_inside _ _ _ _ H).
Qed.

Lemma universal_newlines_head (c : N) (raw : text) :
  c <> newline -> c <> carriage_return ->
  forall rest, universal_newlines raw = c :: rest ->
  exists raw', raw = c :: raw' /\ universal_newlines raw' = rest.
Proof.
  intros Hn Hr. induction raw as [|d raw IH]; intros rest; cbn.
  - discriminate.
  - destruct (N.eqb_spec d carriage_return) as [->|Hd].
    + destruct raw as [|e raw].
      * intros [= <- _]. contradiction.
      * destruct (N.eqb_spec e newline) as [->|He].
        -- intros H. destruct (IH _ H) as (raw' & [= <- _] & _).
           contradiction.
        -- intros [= <- _]. contradiction.
    + intros [= -> <-]. eauto.
Qed.

Lemma starts_with_universal_newlines (needle raw : text) :
  List.Forall (fun c => c <> newline /\ c <> carriage_return) needle ->
  starts_with needle (universal_newlines raw) = true ->
  starts_with needle raw = true.
Proof.
  intros Hneedle. revert raw.
  induction Hneedle as [|a needle [Hn Hr] _ IH]; intros raw; [reflexivity|].
  intros H. apply starts_with_spec in H as [rest H]. cbn [app] in H.
  apply (universal_newlines_head a raw Hn Hr) in H as (raw' & -> & H).
  cbn [starts_with]. rewrite N.eqb_refl. apply IH.
  rewrite H. apply starts_with_app.
Qed.

Lemma contains_universal_newlines (needle raw : text) :
  List.Forall (fun c => c <> newline /\ c <> carriage_return) needle ->
  contains needle (universal_newlines raw) = true ->
  contains needle raw = true.
Proof.
  intros Hneedle.
  assert (Hnil : needle = [] -> contains needle raw = true).
  { intros ->. now destruct raw. }
  destruct needle as [|a needle]; [intros _; now apply Hnil|]. clear Hnil.
  pose proof (List.Forall_inv Hneedle) as [Hn Hr].
  induction raw as [|d raw IH].
  - exact (fun H => H).
  - intros H.
    assert (Hcase : universal_newlines (d :: raw) = d :: universal_newlines raw
                    \/ contains (a :: needle) (universal_newlines raw) = true).
    { cbn [universal_newlines] in *.
      destruct (N.eqb_spec d carriage_return) as [->|Hd]; [|now left].
      right. destruct raw as [|e raw].
      - cbn in H. destruct (N.eqb_spec a newline); [contradiction|].
        discriminate H.
      - destruct (N.eqb_spec e newline) as [->|He]; [exact H|].
        cbn [contains] in H.
        rewrite (starts_with_other_head a newline) in H by congruence.
        exact H. }
    destruct Hcase as [Heq|Hin].
    + cbn [contains]. apply orb_true_iff.
      rewrite Heq in H. cbn [contains] in H.
      apply orb_true_iff in H as [H|H]; [left|right; now apply IH].
      rewrite <- Heq in H.
      now apply starts_with_universal_newlines in H.
    + cbn [contains]. rewrite (IH Hin). apply orb_true_r.
Qed.


End PyStrProperties.

(** ** Properties of fix_calendar_port.py *)

Section FixCalendarPortProperties.

Import PyStr FixCalendarPort.

Local Open Scope nat_scope.

(** *** The loop *)

Lemma step_outside (line : text) :
  no_marker line -> step false line = (false, line).
Proof. unfold no_marker, step. intros ->. reflexivity. Qed.

Lemma step_marker (flag : bool) (line : text) :
  contains marker line = true -> step flag line = (true, line).
Proof. unfold step. intros ->. reflexivity. Qed.

Lemma loop_outside (lines : list text) :
  List.Forall no_marker lines -> loop false lines = lines.
Proof.
  induction 1 as [|line lines Hline _ IH]; [reflexivity|].
  cbn [loop]. rewrite (step_outside line Hline). now rewrite IH.
Qed.

Lemma loop_app_outside (pre rest : list text) :
  List.Forall no_marker pre -> loop false (pre ++ rest) = pre ++ loop false rest.
Proof.
  induction 1 as [|line lines Hline _ IH]; [reflexivity|].
  cbn [loop app]. rewrite (step_outside line Hline). now rewrite IH.
Qed.

Lemma old_ports_nonempty : old_ports <> [].
Proof. discriminate. Qed.

Lemma old_grpc_nonempty : old_grpc <> [].
Proof. discriminate. Qed.

Lemma step_line_cases (flag : bool) (line : text) :
  snd (step flag line) = line
  \/ snd (step flag line) = replace old_ports new_ports line
  \/ snd (step flag line) = replace old_grpc new_grpc line.
Proof.
  unfold step.
  repeat match goal with
         | |- context [if ?b then _ else _] => destruct b
         end; cbn [snd]; auto.
Qed.

Lemma step_without_50059 (flag : bool) (line : text) :
  contains (lit "50059") line = false -> snd (step flag line) = line.
Proof.
  intros H.
  assert (Hports : contains old_ports line = false).
  { destruct (contains old_ports line) eqn:Hc; [|reflexivity].
    rewrite <- H. symmetry.
    exact (contains_needle_app_l (lit "50059") (lit ":50059") line Hc). }
  assert (Hgrpc : contains old_grpc line = false).
  { destruct (contains old_grpc line) eqn:Hc; [|reflexivity].
    rewrite <- H. symmetry.
    exact (contains_needle_app_r (lit "GRPC_PORT: ") (lit "50059") line Hc). }
  destruct (step_line_cases flag line) as [->| [-> | ->]]; [reflexivity| |].
  - exact (replace_absent _ _ _ old_ports_nonempty Hports).
  - exact (replace_absent _ _ _ old_grpc_nonempty Hgrpc).
Qed.

Lemma loop_without_50059 (flag : bool) (lines : list text) :
  List.Forall (fun line => contains (lit "50059") line = false) lines ->
  loop flag lines = lines.
Proof.
  intros H. revert flag.
  induction H as [|line lines Hline _ IH]; intros flag; [reflexivity|].
  cbn [loop]. pose proof (step_without_50059 flag line Hline) as Hs.
  destruct (step flag line) as [flag' line']. cbn [snd] in Hs.
  now rewrite Hs, IH.
Qed.



(** X11: a docker-compose.yml that does not contain the text
    calendar-service: is written back as it was read: nothing but the
    translation of line ends by the text mode of the two [open] calls
    happens to it. *)
Theorem file_without_marker_is_unchanged (linesep raw : text) :
  contains marker raw = false ->
  fix_calendar_port linesep raw
  = write_newlines linesep (universal_newlines raw).
Proof.
  intros H. unfold fix_calendar_port. cbv zeta.
  assert (Hu : contains marker (universal_newlines raw) = false).
  { destruct (contains marker (universal_newlines raw)) eqn:Hc; [|reflexivity].
    rewrite <- H. symmetry. revert Hc. apply contains_universal_newlines.
    unfold marker, newline, carriage_return.
    repeat constructor; discriminate. }
  rewrite (loop_outside _ (readlines_without _ _ Hu)).
  now rewrite readlines_concat.
Qed.

(** X12: a file that nowhere contains 50059 is written back as it was
    read, whether or not it has a calendar-service section. *)
Theorem file_without_50059_is_unchanged (linesep raw : text) :
  contains (lit "50059") raw = false ->
  fix_calendar_port linesep raw
  = write_newlines linesep (universal_newlines raw).
Proof.
  intros H. unfold fix_calendar_port. cbv zeta.
  assert (Hu : contains (lit "50059") (universal_newlines raw) = false).
  { destruct (contains (lit "50059") (universal_newlines raw)) eqn:Hc;
      [|reflexivity].
    rewrite <- H. symmetry. revert Hc. apply contains_universal_newlines.
    unfold newline, carriage_return.
    repeat constructor; discriminate. }
  rewrite (loop_without_50059 _ _ (readlines_without _ _ Hu)).
  now rewrite readlines_concat.
Qed.


(** X14: inside the section, a line made of white space, the mapping
    - "50059:50059" and a tail that does not name calendar-service: gets the
    mapping 50058:50058, and every further 50059:50059 on the line is
    replaced too; the section stays open.  (A line that names
    calendar-service: is kept as it is: that test comes first in the
    loop.) *)
Theorem port_mapping_line_is_rewritten (indent tail : text) :
  forallb is_space indent = true ->
  contains marker tail = false ->
  step true (indent ++ old_mapping ++ tail)
  = (true,
     indent ++ lit "- " ++ dquote ++ new_ports ++ dquote
       ++ replace old_ports new_ports tail).
Proof.
  intros Hindent Htail. unfold step.
  assert (Hmarker : contains marker (indent ++ old_mapping ++ tail) = false).
  { rewrite <- Htail. unfold marker.
    change (lit "calendar-service:")
      with (99%N :: lit "alendar-service:").
    rewrite contains_other_prefix
      by (apply (spaces_are_not 99); [lia|exact Hindent]).
    apply contains_other_prefix. repeat constructor; discriminate. }
  rewrite Hmarker.
  assert (Hstrip : starts_with old_mapping
                     (strip (indent ++ old_mapping ++ tail)) = true).
  { unfold strip. rewrite (lstrip_spaces _ _ Hindent).
    change (lstrip (old_mapping ++ tail)) with (old_mapping ++ tail).
    rewrite (rstrip_nonspace 34 (lit "- " ++ dquote ++ old_ports) tail
               eq_refl
             : rstrip (old_mapping ++ tail) = old_mapping ++ rstrip tail).
    apply starts_with_app. }
  rewrite Hstrip. cbn [andb]. f_equal.
  unfold replace, old_ports.
  change (lit "50059:50059") with (53%N :: lit "0059:50059").
  rewrite replace_from_other_prefix
    by (apply (spaces_are_not 53); [lia|exact Hindent]).
  reflexivity.
Qed.

(** X15: inside the section, a line that does not name calendar-service:,
    is not a mapping line and contains GRPC_PORT: 50059 has every occurrence
    replaced by GRPC_PORT: 50058, and it closes the section: the lines after
    it are kept as they are up to the next line that names
    calendar-service: again. *)
Theorem grpc_port_line_is_rewritten_and_closes_section
    (line : text) (rest : list text) :
  no_marker line ->
  starts_with old_mapping (strip line) = false ->
  contains old_grpc line = true ->
  List.Forall no_marker rest ->
  loop true (line :: rest) = replace old_grpc new_grpc line :: rest
  /\ contains new_grpc (replace old_grpc new_grpc line) = true.
Proof.
  intros Hmarker Hmapping Hgrpc Hrest. split.
  - cbn [loop]. unfold step. rewrite Hmarker, Hmapping, Hgrpc. cbn [andb].
    now rewrite (loop_outside rest Hrest).
  - exact (replace_contains_new _ _ _ old_grpc_nonempty Hgrpc).
Qed.

(** X16: inside the section, any line that is not blank, is not a list item
    and mentions none of calendar-service:, GRPC_PORT, ports: and
    container_name closes the section without being changed (a line such as
    environment: does): the lines after it, a GRPC_PORT: 50059 among them,
    are kept as they are up to the next line that names
    calendar-service:. *)
Theorem other_line_closes_section (line : text) (rest : list text) :
  no_marker line ->
  strip line <> [] ->
  starts_with (lit "-") (strip line) = false ->
  contains (lit "GRPC_PORT") line = false ->
  contains (lit "ports:") line = false ->
  contains (lit "container_name") line = false ->
  List.Forall no_marker rest ->
  loop true (line :: rest) = line :: rest.
Proof.
  intros Hmarker Hblank Hitem Hgrpc Hports Hname Hrest.
  assert (Hmapping : starts_with old_mapping (strip line) = false).
  { destruct (starts_with old_mapping (strip line)) eqn:Hs; [|reflexivity].
    rewrite <- Hitem. symmetry.
    exact (starts_with_needle_app_l (lit "-") _ _ Hs). }
  assert (Hold : contains old_grpc line = false).
  { destruct (contains old_grpc line) eqn:Hc; [|reflexivity].
    rewrite <- Hgrpc. symmetry.
    exact (contains_needle_app_l (lit "GRPC_PORT") (lit ": 50059") line Hc). }
  assert (Hlen : Nat.eqb (List.length (strip line)) 0 = false).
  { destruct (strip line); [contradiction|reflexivity]. }
  cbn [loop]. unfold step.
  rewrite Hmarker, Hmapping, Hold, Hlen, Hitem, Hgrpc, Hports, Hname.
  cbn [andb negb]. now rewrite (loop_outside rest Hrest).
Qed.

(** X17: every line before the first one that names calendar-service: is
    kept, and so is that line itself, whatever else it holds; the section
    is open from the next line on. *)
Theorem lines_through_first_marker_are_kept
    (before : list text) (line : text) (rest : list text) :
  List.Forall no_marker before ->
  contains marker line = true ->
  loop false (before ++ line :: rest) = before ++ line :: loop true rest.
Proof.
  intros Hbefore Hline. rewrite (loop_app_outside _ _ Hbefore).
  cbn [loop]. now rewrite (step_marker false line Hline).
Qed.

End FixCalendarPortProperties.

(** ** Properties of fix_ports.py *)

Section MatcherProperties.

Import PyStr FixPorts.

Local Open Scope nat_scope.

Context {A : Type}.

Lemma m_lit_Some (l : text) (k : text -> option A) (s : text) (r : A) :
  m_lit l k s = Some r <-> exists s', s = l ++ s' /\ k s' = Some r.
Proof.
  unfold m_lit. split.
  - destruct (starts_with l s) eqn:Hs; [|discriminate].
    apply starts_with_spec in Hs as [rest ->].
    rewrite List.skipn_app, List.skipn_all, Nat.sub_diag. cbn. eauto.
  - intros (s' & -> & H). rewrite starts_with_app.
    rewrite List.skipn_app, List.skipn_all, Nat.sub_diag. exact H.
Qed.

Lemma m_lit_app (l : text) (k : text -> option A) (s : text) :
  m_lit l k (l ++ s) = k s.
Proof.
  unfold m_lit. rewrite starts_with_app.
  now rewrite List.skipn_app, List.skipn_all, Nat.sub_diag.
Qed.

Lemma m_lit_mismatch (l : text) (k : text -> option A) (s : text) :
  starts_with l s = false -> m_lit l k s = None.
Proof. unfold m_lit. now intros ->. Qed.

Lemma m_lazy_any_sound (k : text -> text -> option A) (taken s : text) (r : A) :
  m_lazy_any k taken s = Some r ->
  exists a b, s = a ++ b /\ k (taken ++ a) b = Some r.
Proof.
  revert taken. induction s as [|c s IH]; intros taken; cbn.
  - destruct (k taken []) eqn:Hk; [|discriminate].
    intros [= ->]. exists [], [].
    split; [reflexivity|now rewrite List.app_nil_r].
  - destruct (k taken (c :: s)) eqn:Hk.
    + intros [= ->]. exists [], (c :: s).
      split; [reflexivity|now rewrite List.app_nil_r].
    + intros H. apply IH in H as (a & b & -> & H).
      exists (c :: a), b. split; [reflexivity|].
      now rewrite <- List.app_assoc in H.
Qed.

(** The lazy star stops at the first split its continuation accepts. *)
Lemma m_lazy_any_first (k : text -> text -> option A) (a b taken : text) (r : A) :
  (forall a1 c a2, a = a1 ++ c :: a2 -> k (taken ++ a1) (c :: a2 ++ b) = None) ->
  k (taken ++ a) b = Some r ->
  m_lazy_any k taken (a ++ b) = Some r.
Proof.
  revert taken. induction a as [|c a IH]; intros taken Hshort Hk.
  - rewrite List.app_nil_r in Hk. destruct b; cbn; now rewrite Hk.
  - cbn [app m_lazy_any].
    pose proof (Hshort [] c a eq_refl) as H0.
    rewrite List.app_nil_r in H0. rewrite H0.
    apply IH.
    + intros a1 c' a2 ->. rewrite <- List.app_assoc.
      exact (Hshort (c :: a1) c' a2 eq_refl).
    + now rewrite <- List.app_assoc.
Qed.

Lemma m_greedy_plus_sound (class : N -> bool) (k : text -> text -> option A)
    (taken s : text) (r : A) :
  m_greedy_plus class k taken s = Some r ->
  exists a b, s = a ++ b /\ a <> [] /\ forallb class a = true
              /\ k (taken ++ a) b = Some r.
Proof.
  revert taken. induction s as [|c s IH]; intros taken; cbn; [discriminate|].
  destruct (class c) eqn:Hc; [|discriminate].
  destruct (m_greedy_plus class k (taken ++ [c]) s) eqn:Hmore.
  - intros [= ->]. apply IH in Hmore as (a & b & -> & _ & Ha & H).
    exists (c :: a), b. cbn. rewrite Hc, Ha.
    rewrite <- List.app_assoc in H.
    split; [reflexivity|]. split; [discriminate|]. split; [reflexivity|exact H].
  - intros H. exists [c], s. cbn. rewrite Hc.
    split; [reflexivity|]. split; [discriminate|]. split; [reflexivity|exact H].
Qed.

Lemma m_greedy_plus_stops (class : N -> bool) (k : text -> text -> option A)
    (taken s : text) :
  starts_in class s = false -> m_greedy_plus class k taken s = None.
Proof. destruct s; cbn; [reflexivity|]. now intros ->. Qed.

(** The greedy plus takes the whole run when its continuation accepts it. *)
Lemma m_greedy_plus_longest (class : N -> bool) (k : text -> text -> option A)
    (a b taken : text) (r : A) :
  a <> [] -> forallb class a = true -> starts_in class b = false ->
  k (taken ++ a) b = Some r ->
  m_greedy_plus class k taken (a ++ b) = Some r.
Proof.
  intros Ha Hclass Hb. revert taken.
  induction a as [|c a IH]; intros taken Hk; [contradiction|].
  cbn in Hclass. apply andb_prop in Hclass as [Hc Hclass].
  cbn [app m_greedy_plus]. rewrite Hc.
  destruct a as [|d a].
  - cbn [app]. now rewrite (m_greedy_plus_stops _ _ _ _ Hb).
  - rewrite (IH ltac:(discriminate) Hclass (taken ++ [c])); [reflexivity|].
    now rewrite <- List.app_assoc.
Qed.

(** With a continuation that accepts whatever it is given, the greedy plus
    takes the whole run. *)
Lemma m_greedy_plus_last (class : N -> bool) (f : text -> text -> A)
    (taken s : text) (r : A) :
  m_greedy_plus class (fun taken s => Some (f taken s)) taken s = Some r ->
  exists a b, s = a ++ b /\ a <> [] /\ forallb class a = true
              /\ starts_in class b = false /\ r = f (taken ++ a) b.
Proof.
  revert taken. induction s as [|c s IH]; intros taken; cbn; [discriminate|].
  destruct (class c) eqn:Hc; [|discriminate].
  destruct (m_greedy_plus class _ (taken ++ [c]) s) eqn:Hmore.
  - intros [= ->]. apply IH in Hmore as (a & b & -> & _ & Ha & Hb & ->).
    exists (c :: a), b. cbn. rewrite Hc, Ha, <- List.app_assoc.
    split; [reflexivity|]. split; [discriminate|]. auto.
  - intros [= <-]. exists [c], s. cbn. rewrite Hc.
    split; [reflexivity|]. split; [discriminate|].
    split; [reflexivity|]. split; [|reflexivity].
    destruct s as [|d s]; [reflexivity|]. cbn in Hmore |- *.
    destruct (class d); [|reflexivity].
    now destruct (m_greedy_plus class _ ((taken ++ [c]) ++ [d]) s).
Qed.

End MatcherProperties.

Section FixPortsProperties.

Import PyStr FixPorts.

Local Open Scope nat_scope.

Variable is_decimal : N -> bool.

(** What a match is made of. *)
Lemma match_here_sound (service s : text) (m : groups) :
  match_here is_decimal service s = Some m ->
  exists any1 spaces any2,
    s = group1 m ++ group2 m ++ lit ":" ++ group3 m ++ group4 m
          ++ group5 m ++ after_match m
    /\ group1 m = service ++ any1 ++ lit "ports:" ++ spaces
                    ++ lit "- " ++ dquote
    /\ group4 m = dquote ++ any2 ++ lit "GRPC_PORT: "
    /\ (spaces <> [] /\ forallb is_space spaces = true)
    /\ (group2 m <> [] /\ forallb is_decimal (group2 m) = true)
    /\ (group3 m <> [] /\ forallb is_decimal (group3 m) = true)
    /\ (group5 m <> [] /\ forallb is_decimal (group5 m) = true)
    /\ starts_in is_decimal (after_match m) = false.
Proof.
  unfold match_here.
  generalize (lit "- " ++ dquote), dquote, (lit "ports:"), (lit ":"),
    (lit "GRPC_PORT: ").
  intros mapping quote ports colon grpc H.
  apply m_lit_Some in H as (s1 & -> & H).
  apply m_lazy_any_sound in H as (any1 & s2 & -> & H).
  apply m_lit_Some in H as (s3 & -> & H).
  apply m_greedy_plus_sound in H as (spaces & s4 & -> & Hs & Hs' & H).
  apply m_lit_Some in H as (s5 & -> & H).
  apply m_greedy_plus_sound in H as (d2 & s6 & -> & H2 & H2' & H).
  apply m_lit_Some in H as (s7 & -> & H).
  apply m_greedy_plus_sound in H as (d3 & s8 & -> & H3 & H3' & H).
  apply m_lit_Some in H as (s9 & -> & H).
  apply m_lazy_any_sound in H as (any2 & s10 & -> & H).
  apply m_lit_Some in H as (s11 & -> & H).
  apply m_greedy_plus_last in H as (d5 & s12 & -> & H5 & H5' & Hlast & ->).
  cbn [group1 group2 group3 group4 group5 after_match].
  rewrite ?List.app_nil_l.
  exists any1, spaces, any2.
  split; [now rewrite <- !List.app_assoc|].
  repeat split; assumption.
Qed.

Lemma match_here_needs (service s : text) (m : groups) :
  match_here is_decimal service s = Some m ->
  starts_with service s = true
  /\ contains (lit "ports:") s = true
  /\ contains (lit "GRPC_PORT: ") s = true.
Proof.
  intros H. apply match_here_sound in H
    as (any1 & spaces & any2 & -> & -> & -> & _).
  split; [|split].
  - rewrite <- !List.app_assoc. apply starts_with_app.
  - apply contains_spec. exists (service ++ any1). eexists.
    rewrite <- !List.app_assoc. reflexivity.
  - apply contains_spec.
    exists ((service ++ any1 ++ lit "ports:" ++ spaces ++ lit "- " ++ dquote)
              ++ group2 m ++ lit ":" ++ group3 m ++ dquote ++ any2).
    eexists. rewrite <- !List.app_assoc. reflexivity.
Qed.

Lemma contains_tail (needle : text) (c : N) (s : text) :
  contains needle (c :: s) = false -> contains needle s = false.
Proof. cbn [contains]. now intros [_ H]%orb_false_elim. Qed.

Lemma sub_from_unchanged (service ports grpc_port s : text) :
  contains service s = false
  \/ contains (lit "ports:") s = false
  \/ contains (lit "GRPC_PORT: ") s = false ->
  sub_from is_decimal service ports grpc_port 0 s = s.
Proof.
  induction s as [|c s IH]; [reflexivity|]. intros H. cbn [sub_from].
  destruct (match_here is_decimal service (c :: s)) as [m|] eqn:Hm.
  - exfalso. apply match_here_needs in Hm as (H1 & H2 & H3).
    apply starts_with_contains in H1. rewrite H1, H2, H3 in H.
    now destruct H as [H|[H|H]].
  - f_equal. apply IH.
    destruct H as [H|[H|H]]; apply contains_tail in H; auto.
Qed.

Lemma sub_from_skip (service ports grpc_port pre s : text) :
  sub_from is_decimal service ports grpc_port (List.length pre) (pre ++ s)
  = sub_from is_decimal service ports grpc_port 0 s.
Proof.
  induction pre as [|c pre IH]; [reflexivity|exact IH].
Qed.

Lemma starts_with_within (needle u v : text) :
  List.length needle <= List.length u ->
  starts_with needle (u ++ v) = starts_with needle u.
Proof.
  revert u. induction needle as [|a needle IH]; intros u; [reflexivity|].
  destruct u as [|b u]; cbn [List.length]; [lia|].
  intros H. cbn [app starts_with]. rewrite IH by lia. reflexivity.
Qed.

Lemma length_removelast (s : text) :
  List.length (List.removelast s) = List.length s - 1.
Proof.
  destruct s as [|c s]; [reflexivity|].
  rewrite (List.app_removelast_last 0%N (l := c :: s)) at 2 by discriminate.
  rewrite List.length_app. cbn [List.length]. lia.
Qed.

(** No occurrence of the needle starts before its first one. *)
Lemma first_at_end_no_start (needle pre : text) :
  first_at_end needle pre = true ->
  forall b1 c b2 rest,
    pre = b1 ++ c :: b2 ->
    starts_with needle (c :: b2 ++ needle ++ rest) = false.
Proof.
  unfold first_at_end. intros H b1 c b2 rest ->.
  apply negb_true_iff in H.
  destruct (starts_with needle (c :: b2 ++ needle ++ rest)) eqn:Hs;
    [|reflexivity].
  rewrite <- H. symmetry.
  rewrite <- List.app_assoc.
  rewrite List.removelast_app by (cbn; discriminate).
  apply contains_app_r, starts_with_contains.
  set (L := (c :: b2) ++ needle).
  assert (HL : L <> []) by discriminate.
  change (c :: b2 ++ needle ++ rest) with ((c :: b2) ++ needle ++ rest) in Hs.
  rewrite List.app_assoc in Hs. fold L in Hs.
  rewrite (List.app_removelast_last 0%N HL), <- List.app_assoc in Hs.
  rewrite starts_with_within in Hs; [exact Hs|].
  rewrite length_removelast. subst L.
  rewrite List.length_app. cbn [List.length]. lia.
Qed.

Lemma sub_from_before (service ports grpc_port before s : text) :
  first_at_end service before = true ->
  (exists rest, s = service ++ rest) ->
  sub_from is_decimal service ports grpc_port 0 (before ++ s)
  = before ++ sub_from is_decimal service ports grpc_port 0 s.
Proof.
  intros Hfirst [rest ->].
  induction before as [|c before IH]; [reflexivity|].
  cbn [app sub_from].
  replace (match_here is_decimal service (c :: before ++ service ++ rest))
    with (@None groups).
  - f_equal. apply IH.
    unfold first_at_end in *. apply negb_true_iff in Hfirst.
    apply negb_true_iff.
    destruct (contains service (List.removelast (before ++ service))) eqn:Hc;
      [|reflexivity].
    rewrite <- Hfirst. symmetry.
    change ((c :: before) ++ service) with ([c] ++ before ++ service).
    destruct (before ++ service) eqn:Hbs.
    + destruct service; [|now destruct before]. now destruct before.
    + rewrite List.removelast_app by discriminate.
      now apply contains_app_r.
  - symmetry. apply m_lit_mismatch.
    exact (first_at_end_no_start service _ Hfirst [] c before rest eq_refl).
Qed.

Lemma sub_from_match (service ports grpc_port s : text) (m : groups) :
  service <> [] ->
  match_here is_decimal service s = Some m ->
  sub_from is_decimal service ports grpc_port 0 s
  = expand ports grpc_port m
      ++ sub_from is_decimal service ports grpc_port 0 (after_match m).
Proof.
  intros Hservice Hm.
  pose proof (match_here_sound _ _ _ Hm)
    as (any1 & spaces & any2 & Hs & Hg1 & _).
  destruct s as [|c s'].
  { rewrite Hg1 in Hs. destruct service; [contradiction|discriminate Hs]. }
  cbn [sub_from]. rewrite Hm. f_equal.
  remember (group1 m ++ group2 m ++ lit ":" ++ group3 m ++ group4 m
              ++ group5 m) as matched eqn:Hmatched.
  assert (Hsplit : c :: s' = matched ++ after_match m).
  { rewrite Hs, Hmatched. now rewrite <- !List.app_assoc. }
  destruct matched as [|c' matched'].
  { rewrite Hg1 in Hmatched.
    destruct service; [contradiction|discriminate Hmatched]. }
  injection Hsplit as -> ->.
  cbn [List.length]. rewrite List.length_app.
  replace (S (List.length matched' + List.length (after_match m))
           - List.length (after_match m) - 1)
    with (List.length matched') by lia.
  apply sub_from_skip.
Qed.

(** The match of the pattern on a section written the usual way. *)
Lemma match_here_section
    (service any1 spaces digits2 digits3 any2 digits5 rest : text) :
  first_at_end (lit "ports:") any1 = true ->
  spaces <> [] -> forallb is_space spaces = true ->
  digits2 <> [] -> forallb is_decimal digits2 = true ->
  digits3 <> [] -> forallb is_decimal digits3 = true ->
  first_at_end (lit "GRPC_PORT: ") any2 = true ->
  digits5 <> [] -> forallb is_decimal digits5 = true ->
  starts_in is_decimal (lit ":") = false ->
  starts_in is_decimal dquote = false ->
  starts_in is_decimal rest = false ->
  match_here is_decimal service
    (service ++ any1 ++ lit "ports:" ++ spaces ++ (lit "- " ++ dquote)
       ++ digits2 ++ lit ":" ++ digits3 ++ dquote ++ any2
       ++ lit "GRPC_PORT: " ++ digits5 ++ rest)
  = Some {| group1 := service ++ any1 ++ lit "ports:" ++ spaces
                        ++ lit "- " ++ dquote;
            group2 := digits2;
            group3 := digits3;
            group4 := dquote ++ any2 ++ lit "GRPC_PORT: ";
            group5 := digits5;
            after_match := rest |}.
Proof.
  intros Hany1 Hs Hs' H2 H2' H3 H3' Hany2 H5 H5' Hcolon Hquote Hrest.
  unfold match_here. rewrite m_lit_app.
  apply m_lazy_any_first.
  { intros a1 c a2 Ha. apply m_lit_mismatch.
    exact (first_at_end_no_start _ _ Hany1 a1 c a2 _ Ha). }
  cbn [app]. rewrite m_lit_app.
  apply m_greedy_plus_longest; [exact Hs|exact Hs'|reflexivity|].
  cbn [app]. rewrite m_lit_app.
  apply m_greedy_plus_longest; [exact H2|exact H2'|exact Hcolon|].
  cbn [app]. rewrite m_lit_app.
  apply m_greedy_plus_longest; [exact H3|exact H3'|exact Hquote|].
  cbn [app]. rewrite m_lit_app.
  apply m_lazy_any_first.
  { intros a1 c a2 Ha. apply m_lit_mismatch.
    exact (first_at_end_no_start _ _ Hany2 a1 c a2 _ Ha). }
  cbn [app]. rewrite m_lit_app.
  apply m_greedy_plus_longest; [exact H5|exact H5'|exact Hrest|].
  reflexivity.
Qed.

Lemma first_at_end_nonempty (needle pre : text) :
  first_at_end needle pre = true -> needle <> [].
Proof.
  unfold first_at_end. intros H ->. apply negb_true_iff in H.
  now destruct (List.removelast (pre ++ [])).
Qed.

(** X19: a file that lacks one of the pieces of the patterns (both service
    names, or ports:, or GRPC_PORT: ) is written back as it was read. *)
Theorem file_without_a_piece_is_unchanged (linesep raw : text) :
  (contains calendar_service raw = false
   /\ contains storage_service raw = false)
  \/ contains (lit "ports:") raw = false
  \/ contains (lit "GRPC_PORT: ") raw = false ->
  fix_ports is_decimal linesep raw
  = write_newlines linesep (universal_newlines raw).
Proof.
  intros H. unfold fix_ports, sub. cbv zeta.
  assert (Hu : forall needle,
             List.Forall (fun c => c <> newline /\ c <> carriage_return) needle ->
             contains needle raw = false ->
             contains needle (universal_newlines raw) = false).
  { intros needle Hneedle Hraw.
    destruct (contains needle (universal_newlines raw)) eqn:Hc; [|reflexivity].
    rewrite <- Hraw. symmetry.
    exact (contains_universal_newlines _ _ Hneedle Hc). }
  assert (Hplain : forall s : string,
             forallb (fun c => negb ((c =? newline) || (c =? carriage_return))%N)
                     (lit s) = true ->
             List.Forall (fun c => c <> newline /\ c <> carriage_return) (lit s)).
  { intros s Hs. apply List.Forall_forall. intros c Hc.
    rewrite forallb_forall in Hs. specialize (Hs c Hc).
    apply negb_true_iff, orb_false_elim in Hs as [H1 H2].
    now apply N.eqb_neq in H1, H2. }
  assert (Hsubs : forall service,
             contains service (universal_newlines raw) = false
             \/ contains (lit "ports:") (universal_newlines raw) = false
             \/ contains (lit "GRPC_PORT: ") (universal_newlines raw) = false ->
             forall ports grpc_port,
               sub_from is_decimal service ports grpc_port 0
                 (universal_newlines raw)
               = universal_newlines raw).
  { intros service Hs ports grpc_port. now apply sub_from_unchanged. }
  rewrite (Hsubs calendar_service), (Hsubs storage_service); [reflexivity| |].
  - destruct H as [[_ H]|[H|H]].
    + left. apply Hu; [|exact H]. now apply (Hplain "storage-service:").
    + right; left. apply Hu; [|exact H]. now apply (Hplain "ports:").
    + right; right. apply Hu; [|exact H]. now apply (Hplain "GRPC_PORT: ").
  - destruct H as [[H _]|[H|H]].
    + left. apply Hu; [|exact H]. now apply (Hplain "calendar-service:").
    + right; left. apply Hu; [|exact H]. now apply (Hplain "ports:").
    + right; right. apply Hu; [|exact H]. now apply (Hplain "GRPC_PORT: ").
Qed.

(** The substitution on a section written the usual way. *)
Lemma sub_section
    (service ports grpc_port : text)
    (before any1 spaces digits2 digits3 any2 digits5 rest : text) :
  first_at_end service before = true ->
  first_at_end (lit "ports:") any1 = true ->
  spaces <> [] -> forallb is_space spaces = true ->
  digits2 <> [] -> forallb is_decimal digits2 = true ->
  digits3 <> [] -> forallb is_decimal digits3 = true ->
  first_at_end (lit "GRPC_PORT: ") any2 = true ->
  digits5 <> [] -> forallb is_decimal digits5 = true ->
  starts_in is_decimal (lit ":") = false ->
  starts_in is_decimal dquote = false ->
  starts_in is_decimal rest = false ->
  let opening :=
    service ++ any1 ++ lit "ports:" ++ spaces ++ lit "- " ++ dquote in
  let middle := dquote ++ any2 ++ lit "GRPC_PORT: " in
  sub is_decimal service ports grpc_port
    (before ++ opening ++ digits2 ++ lit ":" ++ digits3 ++ middle
       ++ digits5 ++ rest)
  = before ++ opening ++ ports ++ middle ++ grpc_port
      ++ sub is_decimal service ports grpc_port rest.
Proof.
  intros Hbefore Hany1 Hs Hs' H2 H2' H3 H3' Hany2 H5 H5' Hcolon Hquote Hrest
         opening middle.
  pose proof (match_here_section service any1 spaces digits2 digits3 any2
                digits5 rest Hany1 Hs Hs' H2 H2' H3 H3' Hany2 H5 H5'
                Hcolon Hquote Hrest) as Hm.
  unfold sub. rewrite sub_from_before.
  - f_equal. subst opening middle.
    replace ((service ++ any1 ++ lit "ports:" ++ spaces ++ lit "- " ++ dquote)
               ++ digits2 ++ lit ":" ++ digits3
               ++ (dquote ++ any2 ++ lit "GRPC_PORT: ") ++ digits5 ++ rest)
      with (service ++ any1 ++ lit "ports:" ++ spaces ++ (lit "- " ++ dquote)
              ++ digits2 ++ lit ":" ++ digits3 ++ dquote ++ any2
              ++ lit "GRPC_PORT: " ++ digits5 ++ rest)
      by (now rewrite <- !List.app_assoc).
    rewrite (sub_from_match _ _ _ _ _
               (first_at_end_nonempty _ _ Hbefore) Hm).
    unfold expand. cbn [group1 group4 after_match].
    now rewrite <- !List.app_assoc.
  - exact Hbefore.
  - subst opening. eexists. rewrite <- !List.app_assoc. reflexivity.
Qed.

(** X18: a match is made of the pieces of the pattern, in the text, in
    their order: the service name, anything, ports:, white space, the
    opening of the mapping, two runs of digits around a colon, the closing
    quote, anything, GRPC_PORT: and a run of digits, which is the whole
    number: no digit follows the match. *)
Theorem match_anatomy (service s : text) (m : groups) :
  match_here is_decimal service s = Some m ->
  exists any1 spaces any2,
    s = group1 m ++ group2 m ++ lit ":" ++ group3 m ++ group4 m
          ++ group5 m ++ after_match m
    /\ group1 m = service ++ any1 ++ lit "ports:" ++ spaces
                    ++ lit "- " ++ dquote
    /\ group4 m = dquote ++ any2 ++ lit "GRPC_PORT: "
    /\ (spaces <> [] /\ forallb is_space spaces = true)
    /\ (group2 m <> [] /\ forallb is_decimal (group2 m) = true)
    /\ (group3 m <> [] /\ forallb is_decimal (group3 m) = true)
    /\ (group5 m <> [] /\ forallb is_decimal (group5 m) = true)
    /\ starts_in is_decimal (after_match m) = false.
Proof. apply match_here_sound. Qed.

(** X20: the first section of the service written the usual way (the name,
    then the first ports: with its mapping, then the first GRPC_PORT: with
    its number) gets the new mapping and the new port; the text before it
    and between its pieces is kept, and the substitution goes on after the
    number.  Whatever lies between the name and ports:, other services
    included, is passed over. *)
Theorem first_section_is_rewritten
    (service ports grpc_port : text)
    (before any1 spaces digits2 digits3 any2 digits5 rest : text) :
  first_at_end service before = true ->
  first_at_end (lit "ports:") any1 = true ->
  spaces <> [] -> forallb is_space spaces = true ->
  digits2 <> [] -> forallb is_decimal digits2 = true ->
  digits3 <> [] -> forallb is_decimal digits3 = true ->
  first_at_end (lit "GRPC_PORT: ") any2 = true ->
  digits5 <> [] -> forallb is_decimal digits5 = true ->
  starts_in is_decimal (lit ":") = false ->
  starts_in is_decimal dquote = false ->
  starts_in is_decimal rest = false ->
  let opening :=
    service ++ any1 ++ lit "ports:" ++ spaces ++ lit "- " ++ dquote in
  let middle := dquote ++ any2 ++ lit "GRPC_PORT: " in
  sub is_decimal service ports grpc_port
    (before ++ opening ++ digits2 ++ lit ":" ++ digits3 ++ middle
       ++ digits5 ++ rest)
  = before ++ opening ++ ports ++ middle ++ grpc_port
      ++ sub is_decimal service ports grpc_port rest.
Proof.
  intros Hbefore Hany1 Hs Hs' H2 H2' H3 H3' Hany2 H5 H5' Hcolon Hquote Hrest.
  now apply sub_section.
Qed.

(** X21: patching a patched file changes nothing more.  For a file with
    one section of the service written the usual way and no further
    mention of the service after it, a second substitution finds the
    section again and writes the same mapping and port. *)
Theorem patching_twice_is_patching_once
    (service port2 port3 grpc_port : text)
    (before any1 spaces digits2 digits3 any2 digits5 rest : text) :
  first_at_end service before = true ->
  first_at_end (lit "ports:") any1 = true ->
  spaces <> [] -> forallb is_space spaces = true ->
  digits2 <> [] -> forallb is_decimal digits2 = true ->
  digits3 <> [] -> forallb is_decimal digits3 = true ->
  first_at_end (lit "GRPC_PORT: ") any2 = true ->
  digits5 <> [] -> forallb is_decimal digits5 = true ->
  starts_in is_decimal (lit ":") = false ->
  starts_in is_decimal dquote = false ->
  starts_in is_decimal rest = false ->
  contains service rest = false ->
  port2 <> [] -> forallb is_decimal port2 = true ->
  port3 <> [] -> forallb is_decimal port3 = true ->
  grpc_port <> [] -> forallb is_decimal grpc_port = true ->
  let ports := port2 ++ lit ":" ++ port3 in
  let content :=
    before
      ++ (service ++ any1 ++ lit "ports:" ++ spaces ++ lit "- " ++ dquote)
      ++ digits2 ++ lit ":" ++ digits3
      ++ (dquote ++ any2 ++ lit "GRPC_PORT: ") ++ digits5 ++ rest in
  sub is_decimal service ports grpc_port
    (sub is_decimal service ports grpc_port content)
  = sub is_decimal service ports grpc_port content.
Proof.
  intros Hbefore Hany1 Hs Hs' H2 H2' H3 H3' Hany2 H5 H5' Hcolon Hquote Hrest
         Hservice Hp2 Hp2' Hp3 Hp3' Hg Hg' ports content.
  assert (Hkept : sub is_decimal service ports grpc_port rest = rest).
  { apply sub_from_unchanged. now left. }
  subst content.
  rewrite (sub_section service ports grpc_port before any1 spaces digits2
             digits3 any2 digits5 rest) by assumption.
  cbv zeta. rewrite Hkept. subst ports.
  rewrite <- (List.app_assoc port2).
  rewrite <- (List.app_assoc (lit ":") port3).
  rewrite (sub_section service (port2 ++ lit ":" ++ port3) grpc_port before
             any1 spaces port2 port3 any2 grpc_port rest) by assumption.
  cbv zeta. rewrite Hkept.
  now rewrite <- !List.app_assoc.
Qed.

End FixPortsProperties.

(** ** The hypotheses of the further properties are satisfiable *)

Section CoverageWitnesses.

Import PyStr FixCalendarPort FixPorts.

Lemma falsy_document_fails_silently_witness :
  analyze_results "results.json" (world_of doc_empty)
  = mkOutcome (Ok false) (world_of doc_empty)
      [PAnalyzing "results.json"; PRule].
Proof.
  apply (falsy_document_fails_silently (world_of doc_empty) "results.json"
           doc_empty); reflexivity.
Defined.

Lemma run_reports_files_in_order_witness :
  run (one_file "results.json" doc_pass) [prog_name; "results.json"]
  = mkOutcome (Raise (SystemExit 0)) (world_of doc_pass)
      (banner
       ++ concat [printed (analyze_results "results.json" (world_of doc_pass))]
       ++ [PFinalRule; PAllPassed]).
Proof.
  refine (run_reports_files_in_order (one_file "results.json" doc_pass)
            prog_name "results.json" [] _).
  constructor; [exists true; reflexivity|constructor].
Defined.

Lemma uncaught_exception_ends_the_run_witness :
  run (one_file "results.json" doc_no_values)
      [prog_name; "results.json"; "missing.json"]
  = mkOutcome (Raise (KeyError "values"))
      (initial_world (one_file "results.json" doc_no_values)
                     [prog_name; "results.json"; "missing.json"])
      (banner
       ++ concat [printed (analyze_results "results.json"
                             (initial_world
                                (one_file "results.json" doc_no_values)
                                [prog_name; "results.json"; "missing.json"]))])
  /\ exit_code (value (run (one_file "results.json" doc_no_values)
                           [prog_name; "results.json"; "missing.json"])) = 1.
Proof.
  refine (uncaught_exception_ends_the_run
            (one_file "results.json" doc_no_values) prog_name "results.json"
            [] ["missing.json"] (KeyError "values") _ _).
  - constructor.
  - reflexivity.
Defined.

Lemma extraction_succeeds_iff_extractable_witness :
  (exists metrics, extract_metrics doc_duration = Ok metrics)
  <-> extractable duration_groups = true.
Proof.
  exact (extraction_succeeds_iff_extractable duration_top duration_groups
           eq_refl).
Defined.

Lemma extracted_metrics_are_group_fields_witness :
  metrics_of doc_duration !! "p95_latency" = Some (py_float 480.5%float)
  /\ (forall key,
        is_Some (metrics_of doc_duration !! key) -> In key metric_names).
Proof.
  pose proof (extracted_metrics_are_group_fields duration_top duration_groups
                (metrics_of doc_duration) eq_refl eq_refl)
    as [(_ & H & _) Hkeys].
  split; [exact H|exact Hkeys].
Defined.

Lemma document_without_known_groups_fails_witness :
  extract_metrics doc_other = Ok ∅
  /\ analyze_results "results.json" (world_of doc_other)
     = mkOutcome (Ok false) (world_of doc_other)
         [PAnalyzing "results.json"; PRule; PNoMetrics].
Proof.
  apply (document_without_known_groups_fails (world_of doc_other)
           "results.json" other_top).
  - reflexivity.
  - vm_compute. discriminate.
  - left. reflexivity.
Defined.

Lemma unprintable_summary_raises_before_checks_witness :
  exists e,
    value (analyze_results "results.json" (world_of doc_text)) = Raise e
    /\ (e = ValueError \/ e = TypeError \/ e = OverflowError)
    /\ check_lines (printed (analyze_results "results.json"
                                              (world_of doc_text))) = [].
Proof.
  apply (unprintable_summary_raises_before_checks (world_of doc_text)
           "results.json" doc_text (metrics_of doc_text));
    first [reflexivity|vm_compute; discriminate].
Defined.


Lemma file_without_marker_is_unchanged_witness :
  contains marker Compose.gateway_only = false
  /\ fix_calendar_port [newline] Compose.gateway_only
     = write_newlines [newline] (universal_newlines Compose.gateway_only).
Proof.
  split; [reflexivity|].
  apply file_without_marker_is_unchanged. reflexivity.
Defined.

Lemma file_without_50059_is_unchanged_witness :
  contains marker Compose.calendar_patched = true
  /\ fix_calendar_port [newline] Compose.calendar_patched
     = write_newlines [newline] (universal_newlines Compose.calendar_patched).
Proof.
  split; [reflexivity|].
  apply file_without_50059_is_unchanged. reflexivity.
Defined.

Lemma port_mapping_line_is_rewritten_witness :
  step true (lit "      " ++ old_mapping ++ [newline])
  = (true,
     lit "      " ++ lit "- " ++ dquote ++ new_ports ++ dquote
       ++ replace old_ports new_ports [newline]).
Proof. apply port_mapping_line_is_rewritten; reflexivity. Defined.

Lemma grpc_port_line_is_rewritten_and_closes_section_witness :
  loop true [Compose.line "      GRPC_PORT: 50059"; Compose.line "  web:"]
  = [replace old_grpc new_grpc (Compose.line "      GRPC_PORT: 50059");
     Compose.line "  web:"]
  /\ contains new_grpc
       (replace old_grpc new_grpc (Compose.line "      GRPC_PORT: 50059"))
     = true.
Proof.
  apply grpc_port_line_is_rewritten_and_closes_section;
    [reflexivity|reflexivity|reflexivity|].
  constructor; [reflexivity|constructor].
Defined.

Lemma other_line_closes_section_witness :
  loop true [Compose.line "    environment:";
             Compose.line "      GRPC_PORT: 50059"]
  = [Compose.line "    environment:"; Compose.line "      GRPC_PORT: 50059"].
Proof.
  apply other_line_closes_section;
    [reflexivity|vm_compute; discriminate|reflexivity|reflexivity
    |reflexivity|reflexivity|].
  constructor; [reflexivity|constructor].
Defined.

Lemma lines_through_first_marker_are_kept_witness :
  loop false ([Compose.line "services:"]
                ++ Compose.line "  calendar-service:"
                :: [Compose.mapping "      " "50059:50059" ++ [newline]])
  = [Compose.line "services:"]
      ++ Compose.line "  calendar-service:"
      :: loop true [Compose.mapping "      " "50059:50059" ++ [newline]].
Proof.
  apply lines_through_first_marker_are_kept; [|reflexivity].
  constructor; [reflexivity|constructor].
Defined.

Lemma match_anatomy_witness :
  match_here ascii_digit calendar_service Compose.calendar_section
  = Some Compose.calendar_match
  /\ forallb ascii_digit (group5 Compose.calendar_match) = true
  /\ starts_in ascii_digit (after_match Compose.calendar_match) = false.
Proof.
  split; [reflexivity|].
  destruct (match_anatomy ascii_digit calendar_service
              Compose.calendar_section Compose.calendar_match eq_refl)
    as (any1 & spaces & any2 & _ & _ & _ & _ & _ & _ & [_ H5] & Hlast).
  split; [exact H5|exact Hlast].
Defined.

Lemma file_without_a_piece_is_unchanged_witness :
  contains (lit "GRPC_PORT: ") Compose.gateway_only = false
  /\ fix_ports ascii_digit [newline] Compose.gateway_only
     = write_newlines [newline] (universal_newlines Compose.gateway_only).
Proof.
  split; [reflexivity|].
  apply file_without_a_piece_is_unchanged. right; right. reflexivity.
Defined.

Lemma first_section_is_rewritten_witness :
  sub ascii_digit calendar_service (lit "50058:50058") (lit "50058")
    (Compose.before_section ++ Compose.calendar_section)
  = Compose.before_section ++ Compose.calendar_section_patched.
Proof.
  refine (first_section_is_rewritten ascii_digit calendar_service
            (lit "50058:50058") (lit "50058")
            Compose.before_section Compose.after_name Compose.after_ports
            (lit "50059") (lit "50059") Compose.after_mapping (lit "50059")
            Compose.after_section _ _ _ _ _ _ _ _ _ _ _ _ _ _);
    first [reflexivity|vm_compute; discriminate].
Defined.

Lemma patching_twice_is_patching_once_witness :
  sub ascii_digit calendar_service (lit "50058:50058") (lit "50058")
    (sub ascii_digit calendar_service (lit "50058:50058") (lit "50058")
       (Compose.before_section ++ Compose.calendar_section))
  = sub ascii_digit calendar_service (lit "50058:50058") (lit "50058")
      (Compose.before_section ++ Compose.calendar_section).
Proof.
  refine (patching_twice_is_patching_once ascii_digit calendar_service
            (lit "50058") (lit "50058") (lit "50058")
            Compose.before_section Compose.after_name Compose.after_ports
            (lit "50059") (lit "50059") Compose.after_mapping (lit "50059")
            Compose.after_section
            _ _ _ _ _ _ _ _ _ _ _ _ _ _ _ _ _ _ _ _ _);
    first [reflexivity|vm_compute; discriminate].
Defined.

End CoverageWitnesses.
